(** * EREV range co-pilot: analytical core

    Shallow embedding of the analytical core of the EREV range co-pilot:
    - [src/evcopilot/model/vmt_bins.py]         trip-bin EV-share model,
    - [src/evcopilot/model/emissions_costs.py]  scenario lookup and CO2/cost calculator,
    - [src/evcopilot/model/range_scenarios.py]  range-scenario orchestrator,
    - [src/evcopilot/model/erev_calculations.py] paper-replication driver.

    Python floats are modelled as exact rationals [Q]; the comparisons of
    the source become the boolean tests [Qle_bool], [Qeq_bool].  Where the
    source divides by zero, the model says what Python or numpy does there
    (NaN for numpy arrays, [ZeroDivisionError] for Python floats) rather
    than Q's [x / 0 = 0]. *)

From Stdlib Require Import QArith Qabs Qminmax Lqa List String Bool.
Import ListNotations.
Open Scope Q_scope.

(** Python's [min(a, b)]: the first argument unless the second is smaller. *)
Definition py_min (a b : Q) : Q := if Qlt_le_dec b a then b else a.
(** Python's [max(a, b)]: the first argument unless the second is larger. *)
Definition py_max (a b : Q) : Q := if Qlt_le_dec a b then b else a.

(* ------------------------------------------------------------------ *)
(** ** vmt_bins.py *)

Module VmtBins.

(** [@dataclass class TripBin]; [upper = None] is an open-ended bin. *)
Record TripBin := mkTripBin {
  lower : Q;
  upper : option Q;
  share_of_trips : Q
}.

(** [TripBin.midpoint]. *)
Definition midpoint (b : TripBin) : Q :=
  match upper b with
  | None => lower b * 1.2
  | Some u => 0.5 * (lower b + u)
  end.

Fixpoint sum (xs : list Q) : Q :=
  match xs with
  | [] => 0
  | x :: xs' => x + sum xs'
  end.

(** [np.isclose(a, b, atol=atol)] with numpy's default [rtol = 1e-5]. *)
Definition np_isclose (a b atol : Q) : bool :=
  Qle_bool (Qabs (a - b)) (atol + 1e-5 * Qabs b).

(** [default_trip_bins()], including its renormalisation branch. *)
Definition default_trip_bins : list TripBin :=
  let bins := [
    mkTripBin 0.0 (Some 1.0) 0.20;
    mkTripBin 1.0 (Some 3.0) 0.25;
    mkTripBin 3.0 (Some 5.0) 0.15;
    mkTripBin 5.0 (Some 10.0) 0.15;
    mkTripBin 10.0 (Some 20.0) 0.10;
    mkTripBin 20.0 (Some 30.0) 0.06;
    mkTripBin 30.0 (Some 50.0) 0.04;
    mkTripBin 50.0 (Some 100.0) 0.03;
    mkTripBin 100.0 None 0.02 ] in
  let total_share := sum (map share_of_trips bins) in
  if negb (np_isclose total_share 1.0 1e-6) then
    map (fun b => mkTripBin (lower b) (upper b) (share_of_trips b / total_share)) bins
  else bins.

(** [compute_vmt_shares(bins)].  [raw_vmt / total_vmt] is numpy array
    division: when [total_vmt = 0] every entry is [nan] or [+-inf]; that
    case is [None] in the first component. *)
Definition compute_vmt_shares (bins : list TripBin) : option (list Q) * list Q :=
  let distances := map midpoint bins in
  let raw_vmt := map (fun b => share_of_trips b * midpoint b) bins in
  let total_vmt := sum raw_vmt in
  let vmt_shares :=
    if Qeq_bool total_vmt 0 then None
    else Some (map (fun x => x / total_vmt) raw_vmt) in
  (vmt_shares, distances).

(** [np.dot] of two vectors of the same length. *)
Fixpoint dot (xs ys : list Q) : Q :=
  match xs, ys with
  | x :: xs', y :: ys' => x * y + dot xs' ys'
  | _, _ => 0
  end.

(** [np.minimum(1.0, range_miles / np.maximum(distances, 1e-6))]. *)
Definition frac_electric_per_bin (range_miles : Q) (distances : list Q) : list Q :=
  map (fun d => Qmin 1.0 (range_miles / Qmax d 1e-6)) distances.

(** [max(0.0, min(ev_share, 1.0))]; [None] is a [nan] EV share, for which
    [min(nan, 1.0)] is [nan] and [max(0.0, nan)] is [0.0]. *)
Definition clamp01 (ev_share : option Q) : Q :=
  match ev_share with
  | None => 0.0
  | Some x => py_max 0.0 (py_min x 1.0)
  end.

(** [compute_ev_share_for_range(range_miles, bins=bins)]. *)
Definition compute_ev_share_for_range_bins (range_miles : Q) (bins : list TripBin) : Q :=
  let '(vmt_shares, distances) := compute_vmt_shares bins in
  let frac := frac_electric_per_bin range_miles distances in
  clamp01 (option_map (fun v => dot v frac) vmt_shares).

(** [compute_ev_share_for_range(range_miles)]: [bins=None] falls back to
    [default_trip_bins()]. *)
Definition compute_ev_share_for_range (range_miles : Q) (bins : option (list TripBin)) : Q :=
  let bins := match bins with None => default_trip_bins | Some bs => bs end in
  compute_ev_share_for_range_bins range_miles bins.

End VmtBins.

(* ------------------------------------------------------------------ *)
(** ** Arithmetic helpers *)

Module QFacts.

Lemma inv_pos (c : Q) : 0 < c -> c * / c == 1 /\ 0 < / c.
Proof.
  intros Hc. split.
  - apply Qmult_inv_r. intros E. rewrite E in Hc. discriminate.
  - apply Qinv_lt_0_compat; exact Hc.
Qed.

Lemma inv_neg (c : Q) : c < 0 -> c * / c == 1 /\ / c < 0.
Proof.
  intros Hc.
  assert (E : c * / c == 1).
  { apply Qmult_inv_r. intros E. rewrite E in Hc. discriminate. }
  split; [exact E|]. nra.
Qed.

Lemma div_le_mono (a b c : Q) : 0 < c -> a <= b -> a / c <= b / c.
Proof. intros Hc Hab. destruct (inv_pos c Hc). unfold Qdiv. nra. Qed.

Lemma div_le_mono_neg (a b c : Q) : c < 0 -> a <= b -> b / c <= a / c.
Proof. intros Hc Hab. destruct (inv_neg c Hc). unfold Qdiv. nra. Qed.

Lemma one_le_div (a c : Q) : 0 < c -> c <= a -> 1 <= a / c.
Proof. intros Hc Hca. destruct (inv_pos c Hc). unfold Qdiv. nra. Qed.

Lemma div_le_one (a c : Q) : 0 < c -> a <= c -> a / c <= 1.
Proof. intros Hc Hac. destruct (inv_pos c Hc). unfold Qdiv. nra. Qed.

Lemma one_le_div_neg (a c : Q) : c < 0 -> a <= c -> 1 <= a / c.
Proof. intros Hc Hac. destruct (inv_neg c Hc). unfold Qdiv. nra. Qed.

Lemma py_min_spec (a b : Q) : py_min a b <= a /\ py_min a b <= b /\
  (py_min a b == a \/ py_min a b == b).
Proof. unfold py_min. destruct (Qlt_le_dec b a); repeat split; lra. Qed.

Lemma py_max_spec (a b : Q) : a <= py_max a b /\ b <= py_max a b /\
  (py_max a b == a \/ py_max a b == b).
Proof. unfold py_max. destruct (Qlt_le_dec a b); repeat split; lra. Qed.

End QFacts.

(* ------------------------------------------------------------------ *)
(** ** The clamp of [compute_ev_share_for_range] *)

Module Clamp.
Import VmtBins QFacts.

Ltac split_decs :=
  repeat match goal with
  | |- context [Qlt_le_dec ?a ?b] => destruct (Qlt_le_dec a b)
  | _ : context [Qlt_le_dec ?a ?b] |- _ => destruct (Qlt_le_dec a b)
  end.

Definition clamp (x : Q) : Q := py_max 0.0 (py_min x 1.0).

Lemma clamp01_Some (x : Q) : clamp01 (Some x) = clamp x.
Proof. reflexivity. Qed.

Lemma clamp_mono (x y : Q) : x <= y -> clamp x <= clamp y.
Proof.
  intros H. unfold clamp, py_max, py_min.
  split_decs; lra.
Qed.

Lemma clamp_bounds (x : Q) : 0 <= clamp x /\ clamp x <= 1.
Proof.
  unfold clamp, py_max, py_min.
  split_decs; lra.
Qed.

Lemma clamp_nonpos (x : Q) : x <= 0 -> clamp x == 0.
Proof.
  intros H. unfold clamp, py_max, py_min.
  split_decs; lra.
Qed.

Lemma clamp_ge1 (x : Q) : 1 <= x -> clamp x == 1.
Proof.
  intros H. unfold clamp, py_max, py_min.
  split_decs; lra.
Qed.

End Clamp.

(* ------------------------------------------------------------------ *)
(** ** Shape of the trip-bin EV share as a function of the range *)

Module EvShareShape.
Import VmtBins QFacts Clamp.

(** The floor [1e-6] of [np.maximum(distances, 1e-6)]. *)
Definition eps : Q := 1e-6.

Lemma eps_pos : 0 < eps.
Proof. reflexivity. Qed.

(** Bin VMT [share_of_trips * midpoint], i.e. the entries of [raw_vmt]. *)
Definition raw_vmt (bins : list TripBin) : list Q :=
  map (fun b => share_of_trips b * midpoint b) bins.

Definition total_vmt (bins : list TripBin) : Q := sum (raw_vmt bins).

(** [np.dot(raw_vmt, frac_electric_per_bin)]: EV VMT before normalisation. *)
Definition W (r : Q) (bins : list TripBin) : Q :=
  dot (raw_vmt bins) (frac_electric_per_bin r (map midpoint bins)).

(** Slope of [W] on [r <= eps], where every bin is only partly electric. *)
Definition K (bins : list TripBin) : Q :=
  sum (map (fun b => share_of_trips b * midpoint b / Qmax (midpoint b) eps) bins).

Fixpoint maxmid (bins : list TripBin) : Q :=
  match bins with
  | [] => 0
  | b :: bs => Qmax (midpoint b) (maxmid bs)
  end.

#[global] Instance clamp_proper : Proper (Qeq ==> Qeq) clamp.
Proof.
  intros x y E. apply Qle_antisym; apply clamp_mono; rewrite E; apply Qle_refl.
Qed.

Lemma W_nil (r : Q) : W r [] = 0.
Proof. reflexivity. Qed.

Lemma W_cons (r : Q) (b : TripBin) (bs : list TripBin) :
  W r (b :: bs) =
  share_of_trips b * midpoint b * Qmin 1.0 (r / Qmax (midpoint b) eps) + W r bs.
Proof. reflexivity. Qed.

Lemma qmax_eps_facts (d : Q) :
  0 < Qmax d eps /\ eps <= Qmax d eps /\ d <= Qmax d eps /\
  (d <= eps -> Qmax d eps == eps) /\ (eps <= d -> Qmax d eps == d).
Proof.
  pose proof eps_pos.
  destruct (Q.max_spec d eps) as [[H1 H2]|[H1 H2]]; rewrite H2;
    repeat split; intros; lra.
Qed.

Lemma term_above (s d r1 r2 : Q) : 0 <= s -> eps <= r1 -> r1 <= r2 ->
  s * d * Qmin 1.0 (r1 / Qmax d eps) <= s * d * Qmin 1.0 (r2 / Qmax d eps).
Proof.
  intros Hs H1 H12.
  destruct (qmax_eps_facts d) as (Hm0 & Hme & Hdm & Hsmall & Hbig).
  set (m := Qmax d eps) in *.
  destruct (Qlt_le_dec d eps) as [Hd|Hd].
  - assert (E1 : Qmin 1.0 (r1 / m) == 1.0).
    { apply Q.min_l.
      assert (1 <= r1 / m) by (apply one_le_div; [exact Hm0|]; rewrite Hsmall; lra).
      lra. }
    assert (E2 : Qmin 1.0 (r2 / m) == 1.0).
    { apply Q.min_l.
      assert (1 <= r2 / m) by (apply one_le_div; [exact Hm0|]; rewrite Hsmall; lra).
      lra. }
    rewrite E1, E2. apply Qle_refl.
  - assert (Hq : r1 / m <= r2 / m) by (apply div_le_mono; assumption).
    assert (Hmin : Qmin 1.0 (r1 / m) <= Qmin 1.0 (r2 / m))
      by (apply Q.min_le_compat_l; exact Hq).
    assert (Hsd : 0 <= s * d) by nra.
    nra.
Qed.

Lemma term_below (s d r : Q) : r <= eps ->
  s * d * Qmin 1.0 (r / Qmax d eps) == r * (s * d / Qmax d eps).
Proof.
  intros Hr.
  destruct (qmax_eps_facts d) as (Hm0 & Hme & _ & _ & _).
  rewrite Q.min_r.
  - unfold Qdiv. ring.
  - assert (r / Qmax d eps <= 1) by (apply div_le_one; [exact Hm0 | lra]). lra.
Qed.

Lemma term_large (s d r : Q) : eps <= r -> d <= r ->
  s * d * Qmin 1.0 (r / Qmax d eps) == s * d.
Proof.
  intros Hr Hd.
  destruct (qmax_eps_facts d) as (Hm0 & _ & _ & _ & _).
  rewrite Q.min_l.
  - ring.
  - assert (1 <= r / Qmax d eps); [|lra].
    apply one_le_div; [exact Hm0|].
    destruct (Q.max_spec d eps) as [[_ E]|[_ E]]; rewrite E; lra.
Qed.

Lemma W_above (bins : list TripBin) (r1 r2 : Q) :
  Forall (fun b => 0 <= share_of_trips b) bins -> eps <= r1 -> r1 <= r2 ->
  W r1 bins <= W r2 bins.
Proof.
  intros Hs H1 H12. induction bins as [|b bs IH].
  - apply Qle_refl.
  - inversion Hs as [|? ? Hb Hbs]; subst.
    rewrite !W_cons.
    pose proof (term_above (share_of_trips b) (midpoint b) r1 r2 Hb H1 H12).
    pose proof (IH Hbs). lra.
Qed.

Lemma W_below (bins : list TripBin) (r : Q) : r <= eps -> W r bins == r * K bins.
Proof.
  intros Hr. induction bins as [|b bs IH].
  - rewrite W_nil. unfold K. simpl. ring.
  - rewrite W_cons, IH, term_below by exact Hr. unfold K. simpl. ring.
Qed.

Lemma W_large (bins : list TripBin) (r : Q) :
  eps <= r -> Forall (fun b => midpoint b <= r) bins -> W r bins == total_vmt bins.
Proof.
  intros Hr Hd. induction bins as [|b bs IH].
  - reflexivity.
  - inversion Hd as [|? ? Hb Hbs]; subst.
    rewrite W_cons, IH by exact Hbs.
    rewrite term_large by assumption. reflexivity.
Qed.

Lemma maxmid_bound (bins : list TripBin) (r : Q) :
  Forall (fun b => midpoint b <= Qmax r (maxmid bins)) bins.
Proof.
  induction bins as [|b bs IH]; constructor.
  - simpl. pose proof (Q.le_max_l (midpoint b) (maxmid bs)).
    pose proof (Q.le_max_r r (Qmax (midpoint b) (maxmid bs))). lra.
  - eapply Forall_impl; [|exact IH]. intros b' Hb'. simpl in *.
    pose proof (Q.le_max_r (midpoint b) (maxmid bs)).
    destruct (Q.max_spec r (maxmid bs)) as [[_ E]|[_ E]]; rewrite E in Hb';
    pose proof (Q.le_max_l r (Qmax (midpoint b) (maxmid bs)));
    pose proof (Q.le_max_r r (Qmax (midpoint b) (maxmid bs))); lra.
Qed.

Lemma dot_div (xs ys : list Q) (T : Q) : ~ T == 0 ->
  dot (map (fun x => x / T) xs) ys == dot xs ys / T.
Proof.
  intros HT. revert ys. induction xs as [|x xs IH]; intros [|y ys]; simpl.
  - field; exact HT.
  - field; exact HT.
  - field; exact HT.
  - rewrite IH. field; exact HT.
Qed.

End EvShareShape.

(* ------------------------------------------------------------------ *)
(** ** Properties of [compute_ev_share_for_range] *)

Module EvShare.
Import VmtBins QFacts Clamp EvShareShape.

Lemma share_unfold (r : Q) (bins : list TripBin) :
  compute_ev_share_for_range r (Some bins) =
  if Qeq_bool (total_vmt bins) 0 then 0.0
  else clamp (dot (map (fun x => x / total_vmt bins) (raw_vmt bins))
                  (frac_electric_per_bin r (map midpoint bins))).
Proof.
  unfold compute_ev_share_for_range, compute_ev_share_for_range_bins,
    compute_vmt_shares.
  destruct Qeq_bool; reflexivity.
Qed.

Lemma share_W (r : Q) (bins : list TripBin) : ~ total_vmt bins == 0 ->
  compute_ev_share_for_range r (Some bins) == clamp (W r bins / total_vmt bins).
Proof.
  intros HT. rewrite share_unfold.
  destruct (Qeq_bool (total_vmt bins) 0) eqn:E.
  - apply Qeq_bool_eq in E. contradiction.
  - rewrite dot_div by exact HT. reflexivity.
Qed.

Lemma share_degenerate (r : Q) (bins : list TripBin) : total_vmt bins == 0 ->
  compute_ev_share_for_range r (Some bins) == 0.
Proof.
  intros HT. rewrite share_unfold.
  destruct (Qeq_bool (total_vmt bins) 0) eqn:E.
  - reflexivity.
  - apply Qeq_bool_neq in E. contradiction.
Qed.

(** Below [eps] the unnormalised EV VMT is linear in the range, so the
    clamped share is monotone there whatever the sign of the slope. *)
Lemma below_mono (bins : list TripBin) (T r1 r2 : Q) :
  0 <= r1 -> r1 <= r2 -> r2 <= eps ->
  clamp (W r1 bins / T) <= clamp (W r2 bins / T).
Proof.
  intros H0 H12 H2e.
  rewrite (W_below bins r1), (W_below bins r2) by lra.
  set (c := K bins / T).
  assert (E1 : r1 * K bins / T == r1 * c) by (unfold c, Qdiv; ring).
  assert (E2 : r2 * K bins / T == r2 * c) by (unfold c, Qdiv; ring).
  rewrite E1, E2.
  destruct (Qlt_le_dec c 0) as [Hc|Hc].
  - rewrite (clamp_nonpos (r1 * c)) by nra.
    apply clamp_bounds.
  - apply clamp_mono. nra.
Qed.

Lemma above_mono_pos (bins : list TripBin) (T r1 r2 : Q) :
  Forall (fun b => 0 <= share_of_trips b) bins -> 0 < T ->
  eps <= r1 -> r1 <= r2 ->
  clamp (W r1 bins / T) <= clamp (W r2 bins / T).
Proof.
  intros Hs HT H1 H12.
  apply clamp_mono, div_le_mono; [exact HT|].
  apply W_above; assumption.
Qed.

(** With a negative total (possible only through negative midpoints),
    every range from [eps] on already saturates the clamp at [1]. *)
Lemma above_saturated_neg (bins : list TripBin) (r : Q) :
  Forall (fun b => 0 <= share_of_trips b) bins -> total_vmt bins < 0 ->
  eps <= r -> clamp (W r bins / total_vmt bins) == 1.
Proof.
  intros Hs HT Hr.
  set (R := Qmax r (maxmid bins)).
  assert (HrR : r <= R) by apply Q.le_max_l.
  assert (HWR : W R bins == total_vmt bins).
  { apply W_large; [lra | apply maxmid_bound]. }
  assert (HWr : W r bins <= W R bins) by (apply W_above; assumption).
  apply clamp_ge1, one_le_div_neg; [exact HT | lra].
Qed.

Lemma W_zero (bins : list TripBin) : W 0 bins == 0.
Proof.
  rewrite W_below.
  - ring.
  - pose proof eps_pos. lra.
Qed.

(** C1: for bins whose trip shares are non-negative and sum to 1, the EV
    share [compute_ev_share_for_range] is non-decreasing in [range_miles]
    on [range_miles >= 0]. *)
Theorem compute_ev_share_for_range_monotone (bins : list TripBin) (r1 r2 : Q) :
  Forall (fun b => 0 <= share_of_trips b) bins ->
  sum (map share_of_trips bins) == 1 ->
  0 <= r1 -> r1 <= r2 ->
  compute_ev_share_for_range r1 (Some bins) <= compute_ev_share_for_range r2 (Some bins).
Proof.
  intros Hs _ H0 H12.
  pose proof eps_pos as He.
  destruct (Qeq_dec (total_vmt bins) 0) as [HT|HT].
  { rewrite !share_degenerate by exact HT. apply Qle_refl. }
  rewrite !share_W by exact HT.
  set (T := total_vmt bins) in *.
  destruct (Qlt_le_dec T 0) as [Hneg|Hpos].
  - destruct (Qlt_le_dec r2 eps) as [H2|H2].
    + apply below_mono; lra.
    + assert (E : clamp (W r2 bins / T) == 1)
        by (apply above_saturated_neg; assumption).
      rewrite E. apply clamp_bounds.
  - assert (HT0 : 0 < T).
    { destruct (Qle_lt_or_eq 0 T Hpos) as [H|H]; [exact H|].
      exfalso. apply HT. rewrite H. reflexivity. }
    destruct (Qlt_le_dec eps r2) as [H2|H2]; [|apply below_mono; lra].
    destruct (Qlt_le_dec r1 eps) as [H1|H1].
    + apply Qle_trans with (clamp (W eps bins / T)).
      * apply below_mono; lra.
      * apply above_mono_pos; try assumption; lra.
    + apply above_mono_pos; assumption.
Qed.

Lemma compute_ev_share_for_range_monotone_witness :
  Forall (fun b => 0 <= share_of_trips b) default_trip_bins /\
  sum (map share_of_trips default_trip_bins) == 1 /\
  0 <= 0 /\ 0 <= 100 /\
  compute_ev_share_for_range 0 (Some default_trip_bins)
    <= compute_ev_share_for_range 100 (Some default_trip_bins).
Proof.
  assert (Hs : Forall (fun b => 0 <= share_of_trips b) default_trip_bins).
  { repeat constructor; apply Qle_bool_iff; reflexivity. }
  assert (Hsum : sum (map share_of_trips default_trip_bins) == 1).
  { apply Qeq_bool_iff. vm_compute. reflexivity. }
  assert (H0 : 0 <= 0) by (apply Qle_bool_iff; reflexivity).
  assert (H100 : 0 <= 100) by (apply Qle_bool_iff; reflexivity).
  split; [exact Hs|]. split; [exact Hsum|]. split; [exact H0|]. split; [exact H100|].
  apply (compute_ev_share_for_range_monotone default_trip_bins 0 100 Hs Hsum H0 H100).
Defined.

(** C6: with range [0] the EV share is [0] for every list of bins; for the
    default 9-bin set the share at [range_miles = 1e9] is at least
    [0.999999]. *)
Theorem compute_ev_share_for_range_limits :
  (forall bins : list TripBin, compute_ev_share_for_range 0 (Some bins) == 0) /\
  0.999999 <= compute_ev_share_for_range 1e9 None.
Proof.
  split.
  - intros bins.
    destruct (Qeq_dec (total_vmt bins) 0) as [HT|HT].
    + apply share_degenerate; exact HT.
    + rewrite share_W by exact HT.
      assert (E : W 0 bins / total_vmt bins == 0).
      { rewrite W_zero. unfold Qdiv. ring. }
      rewrite E. apply clamp_nonpos, Qle_refl.
  - apply Qle_bool_iff. vm_compute. reflexivity.
Qed.

End EvShare.

(* ------------------------------------------------------------------ *)
(** ** Python exceptions and results *)

Module Py.
#[local] Open Scope string_scope.

(** The exceptions the modelled code raises. *)
Inductive PyExc :=
| KeyError (msg : string)
| ZeroDivisionError.

Inductive Result (A : Type) :=
| Ok (a : A)
| Err (e : PyExc).
Arguments Ok {A} a.
Arguments Err {A} e.

Definition bind {A B : Type} (m : Result A) (k : A -> Result B) : Result B :=
  match m with
  | Ok a => k a
  | Err e => Err e
  end.

(** A Python float: finite, or [float("inf")]. *)
Inductive PyFloat :=
| Finite (q : Q)
| Inf.

(** [repr] of a scenario name (names without quotes or backslashes). *)
Definition str_repr (s : string) : string := "'" ++ s ++ "'".

(** [str(list_of_strings)], e.g. ['Worst', 'Average', 'Best']. *)
Definition list_repr (xs : list string) : string :=
  let fix go (ys : list string) : string :=
    match ys with
    | [] => EmptyString
    | [y] => str_repr y
    | y :: ys' => str_repr y ++ ", " ++ go ys'
    end in
  "[" ++ go xs ++ "]".

(** Python [x / y] on floats: [ZeroDivisionError] when [y == 0]. *)
Definition py_div (x y : Q) : Result Q :=
  if Qeq_bool y 0 then Err ZeroDivisionError else Ok (x / y).

End Py.

Notation "x <- m ;; k" := (Py.bind m (fun x => k))
  (at level 61, m at next level, right associativity).

(* ------------------------------------------------------------------ *)
(** ** emissions_costs.py *)

Module EmissionsCosts.
Import Py.
#[local] Open Scope string_scope.

(** [@dataclass class ScenarioParams]. *)
Record ScenarioParams := mkScenarioParams {
  name : string;
  grid_co2_kg_per_kwh : Q;
  gas_co2_kg_per_litre : Q;
  ev_kwh_per_mile : Q;
  gas_litre_per_mile : Q;
  battery_kwh_per_mile_range : Q;
  battery_cost_usd_per_kwh : Q;
  electricity_price_usd_per_kwh : Q;
  gas_price_usd_per_litre : Q
}.

(** [@dataclass class EmissionsCostResult]. *)
Record EmissionsCostResult := mkEmissionsCostResult {
  co2_ev_tons : Q;
  co2_gas_tons : Q;
  co2_baseline_tons : Q;
  co2_savings_tons : Q;
  battery_capex_usd : Q;
  capex_per_ton_usd : PyFloat;
  ev_energy_cost_usd : Q;
  gas_fuel_cost_usd : Q;
  baseline_fuel_cost_usd : Q;
  net_operating_savings_usd : Q
}.

(** A Python [Dict[str, ScenarioParams]]: keys in insertion order, no key
    twice. *)
Definition dict := list (string * ScenarioParams).

Fixpoint dict_get (d : dict) (k : string) : option ScenarioParams :=
  match d with
  | [] => None
  | (k', v) :: d' => if String.eqb k k' then Some v else dict_get d' k
  end.

(** [d[k] = v]: overwrite in place, or append a new key. *)
Fixpoint dict_set (d : dict) (k : string) (v : ScenarioParams) : dict :=
  match d with
  | [] => [(k, v)]
  | (k', v') :: d' =>
      if String.eqb k k' then (k', v) :: d' else (k', v') :: dict_set d' k v
  end.

Definition dict_keys (d : dict) : list string := map fst d.

(** [load_scenario_params_from_yaml()] (data/scenario_config.py): the
    entries of the [scenarios:] mapping of the YAML file, in file order,
    are stored with [out[name] = params].  Reading and parsing the file is
    I/O and its own failures are not modelled. *)
Definition load_scenario_params_from_yaml (scenarios_cfg : list (string * ScenarioParams)) : dict :=
  fold_left (fun out '(nm, params) => dict_set out nm params) scenarios_cfg [].

(** [_SCENARIOS_CACHE]: [None] until the first load. *)
Definition Cache := option dict.

(** [_load_scenarios_if_needed()]: returns the scenarios and the new cache. *)
Definition _load_scenarios_if_needed (cfg : list (string * ScenarioParams)) (cache : Cache)
  : dict * Cache :=
  match cache with
  | None => let d := load_scenario_params_from_yaml cfg in (d, Some d)
  | Some d => (d, Some d)
  end.

Definition unknown_scenario_msg (nm : string) (valid : list string) : string :=
  "Unknown scenario " ++ str_repr nm ++ ". Valid: " ++ list_repr valid.

(** [get_scenario_params(name)]; [name in scenarios] is the lookup
    succeeding, and [scenarios[name]] its value. *)
Definition get_scenario_params (cfg : list (string * ScenarioParams)) (cache : Cache)
  (nm : string) : Result ScenarioParams * Cache :=
  let '(scenarios, cache') := _load_scenarios_if_needed cfg cache in
  match dict_get scenarios nm with
  | None => (Err (KeyError (unknown_scenario_msg nm (dict_keys scenarios))), cache')
  | Some p => (Ok p, cache')
  end.

(** [compute_emissions_and_costs(range_miles=..., ev_vmt=..., gas_vmt=..., params=...)]. *)
Definition compute_emissions_and_costs (range_miles ev_vmt gas_vmt : Q)
  (params : ScenarioParams) : EmissionsCostResult :=
  let total_vmt := ev_vmt + gas_vmt in
  let battery_kwh := battery_kwh_per_mile_range params * range_miles in
  let battery_capex_usd := battery_kwh * battery_cost_usd_per_kwh params in
  let ev_kwh := ev_vmt * ev_kwh_per_mile params in
  let gas_litres := gas_vmt * gas_litre_per_mile params in
  let baseline_litres := total_vmt * gas_litre_per_mile params in
  let co2_ev_kg := ev_kwh * grid_co2_kg_per_kwh params in
  let co2_gas_kg := gas_litres * gas_co2_kg_per_litre params in
  let co2_baseline_kg := baseline_litres * gas_co2_kg_per_litre params in
  let co2_ev_tons := co2_ev_kg / 1000.0 in
  let co2_gas_tons := co2_gas_kg / 1000.0 in
  let co2_baseline_tons := co2_baseline_kg / 1000.0 in
  let co2_savings_tons := co2_baseline_tons - (co2_ev_tons + co2_gas_tons) in
  let ev_energy_cost_usd := ev_kwh * electricity_price_usd_per_kwh params in
  let gas_fuel_cost_usd := gas_litres * gas_price_usd_per_litre params in
  let baseline_fuel_cost_usd := baseline_litres * gas_price_usd_per_litre params in
  let net_operating_savings_usd :=
    baseline_fuel_cost_usd - (ev_energy_cost_usd + gas_fuel_cost_usd) in
  let capex_per_ton_usd :=
    if Qlt_le_dec 0 co2_savings_tons then Finite (battery_capex_usd / co2_savings_tons)
    else Inf in
  mkEmissionsCostResult co2_ev_tons co2_gas_tons co2_baseline_tons co2_savings_tons
    battery_capex_usd capex_per_ton_usd ev_energy_cost_usd gas_fuel_cost_usd
    baseline_fuel_cost_usd net_operating_savings_usd.

End EmissionsCosts.

Module EmissionsCostsFacts.
Import Py EmissionsCosts QFacts.

Lemma dict_get_none (d : dict) (k : string) :
  dict_get d k = None <-> ~ In k (dict_keys d).
Proof.
  induction d as [|[k' v] d IH]; simpl.
  - split; [intros _ []|reflexivity].
  - destruct (String.eqb_spec k k') as [->|Hne].
    + split; [discriminate|]. intros H. exfalso. apply H. left. reflexivity.
    + rewrite IH. split.
      * intros H [E|Hin]; [congruence|contradiction].
      * intros H Hin. apply H. right. exact Hin.
Qed.

(** C5: [get_scenario_params] fails exactly on the names missing from the
    loaded scenario set, with a [KeyError] whose message lists the loaded
    names in order; on a loaded name it returns the stored parameters. *)
Theorem get_scenario_params_spec (cfg : list (string * ScenarioParams)) (cache : Cache)
  (nm : string) :
  let scenarios := fst (_load_scenarios_if_needed cfg cache) in
  ((exists e, fst (get_scenario_params cfg cache nm) = Err e) <->
     ~ In nm (dict_keys scenarios)) /\
  (forall e, fst (get_scenario_params cfg cache nm) = Err e ->
     e = KeyError (unknown_scenario_msg nm (dict_keys scenarios))) /\
  (forall p, dict_get scenarios nm = Some p ->
     fst (get_scenario_params cfg cache nm) = Ok p).
Proof.
  unfold get_scenario_params.
  destruct (_load_scenarios_if_needed cfg cache) as [scenarios cache'] eqn:Hl.
  simpl. rewrite <- dict_get_none.
  destruct (dict_get scenarios nm) as [p|] eqn:Hg; simpl.
  - split; [split; [intros [e He]; discriminate | discriminate]|].
    split; [intros e He; discriminate|].
    intros p' Hp'. injection Hp' as ->. reflexivity.
  - split; [split; [reflexivity | intros _; eexists; reflexivity]|].
    split; [intros e He; injection He as <-; reflexivity|].
    intros p' Hp'. discriminate.
Qed.

(** C3: with [ev_vmt = 0] the EV emissions are [0] and the savings against
    the all-gasoline baseline are exactly [0]. *)
Theorem compute_emissions_and_costs_no_ev (range_miles gas_vmt : Q) (params : ScenarioParams) :
  co2_ev_tons (compute_emissions_and_costs range_miles 0 gas_vmt params) == 0 /\
  co2_savings_tons (compute_emissions_and_costs range_miles 0 gas_vmt params) == 0.
Proof.
  simpl. unfold Qdiv. split; ring.
Qed.

(** Scenario parameters used as a concrete input below. *)
Definition example_params : ScenarioParams :=
  mkScenarioParams "Average" 0.4 2.31 0.3 0.1 0.3 150 0.15 1.0.

(** C2 as stated fails: with [range_miles = 0] the battery CAPEX is [0],
    so with positive savings [capex_per_ton_usd] is the finite value [0],
    not a strictly positive one. *)
Lemma capex_per_ton_zero_range_counterexample :
  ~ (forall (range_miles ev_vmt gas_vmt : Q) (params : ScenarioParams),
       0 < battery_cost_usd_per_kwh params ->
       let res := compute_emissions_and_costs range_miles ev_vmt gas_vmt params in
       (co2_savings_tons res <= 0 -> capex_per_ton_usd res = Inf) /\
       (0 < co2_savings_tons res ->
          exists q, capex_per_ton_usd res = Finite q /\ 0 < q)).
Proof.
  intros H.
  assert (Hc : 0 < battery_cost_usd_per_kwh example_params) by reflexivity.
  destruct (H 0 6000 6000 example_params Hc) as [_ Hpos].
  assert (Hs : 0 < co2_savings_tons (compute_emissions_and_costs 0 6000 6000 example_params))
    by reflexivity.
  destruct (Hpos Hs) as [q [Eq Hq]].
  vm_compute in Eq. injection Eq as <-. discriminate Hq.
Qed.

(** C2 (amended): [capex_per_ton_usd] is [+inf] whenever the savings are
    [<= 0]; otherwise it is the finite [battery_capex_usd / co2_savings_tons],
    strictly positive when [battery_kwh_per_mile_range > 0] and
    [range_miles > 0], and [0] when [range_miles = 0]. *)
Theorem compute_emissions_and_costs_capex_per_ton (range_miles ev_vmt gas_vmt : Q)
  (params : ScenarioParams) :
  0 < battery_cost_usd_per_kwh params ->
  let res := compute_emissions_and_costs range_miles ev_vmt gas_vmt params in
  (co2_savings_tons res <= 0 -> capex_per_ton_usd res = Inf) /\
  (0 < co2_savings_tons res ->
     capex_per_ton_usd res = Finite (battery_capex_usd res / co2_savings_tons res) /\
     (0 < battery_kwh_per_mile_range params -> 0 < range_miles ->
        0 < battery_capex_usd res / co2_savings_tons res) /\
     (range_miles == 0 -> battery_capex_usd res / co2_savings_tons res == 0)).
Proof.
  intros Hc res.
  assert (Hcap : capex_per_ton_usd res =
    if Qlt_le_dec 0 (co2_savings_tons res)
    then Finite (battery_capex_usd res / co2_savings_tons res) else Inf)
    by reflexivity.
  split.
  - intros Hs. rewrite Hcap. destruct (Qlt_le_dec 0 (co2_savings_tons res)); [lra|reflexivity].
  - intros Hs. split; [|split].
    + rewrite Hcap. destruct (Qlt_le_dec 0 (co2_savings_tons res)); [reflexivity|lra].
    + intros Hk Hr.
      assert (Hb : 0 < battery_capex_usd res).
      { change (0 < battery_kwh_per_mile_range params * range_miles
                    * battery_cost_usd_per_kwh params).
        assert (0 < battery_kwh_per_mile_range params * range_miles) by nra. nra. }
      destruct (inv_pos _ Hs). unfold Qdiv. nra.
    + intros Hr.
      change (battery_kwh_per_mile_range params * range_miles
                * battery_cost_usd_per_kwh params / co2_savings_tons res == 0).
      rewrite Hr. unfold Qdiv. ring.
Qed.

Lemma compute_emissions_and_costs_capex_per_ton_witness :
  0 < battery_cost_usd_per_kwh example_params /\
  let res := compute_emissions_and_costs 100 6000 6000 example_params in
  (co2_savings_tons res <= 0 -> capex_per_ton_usd res = Inf) /\
  (0 < co2_savings_tons res ->
     capex_per_ton_usd res = Finite (battery_capex_usd res / co2_savings_tons res) /\
     (0 < battery_kwh_per_mile_range example_params -> 0 < 100 ->
        0 < battery_capex_usd res / co2_savings_tons res) /\
     (100 == 0 -> battery_capex_usd res / co2_savings_tons res == 0)).
Proof.
  assert (Hc : 0 < battery_cost_usd_per_kwh example_params) by reflexivity.
  split; [exact Hc|].
  exact (compute_emissions_and_costs_capex_per_ton 100 6000 6000 example_params Hc).
Defined.

End EmissionsCostsFacts.

(* ------------------------------------------------------------------ *)
(** ** range_scenarios.py *)

Module RangeScenarios.
Import Py EmissionsCosts VmtBins.

(** [@dataclass class RangeScenarioResult]. *)
Record RangeScenarioResult := mkRangeScenarioResult {
  rs_range_miles : Q;
  rs_charges_per_week : Z;
  rs_scenario_name : string;
  ev_share : Q;
  ev_vmt : Q;
  gas_vmt : Q;
  rs_co2_savings_tons : Q;
  rs_capex_per_ton_usd : PyFloat
}.

(** The dict literal of [_charging_frequency_multiplier]. *)
Definition charging_multipliers : list (Z * Q) :=
  [(2%Z, 0.85); (3%Z, 0.90); (5%Z, 1.00); (7%Z, 1.05)].

Fixpoint assoc_get (d : list (Z * Q)) (k : Z) : option Q :=
  match d with
  | [] => None
  | (k', v) :: d' => if Z.eqb k k' then Some v else assoc_get d' k
  end.

(** [_charging_frequency_multiplier(charges_per_week)]: [dict.get(..., 1.0)]. *)
Definition _charging_frequency_multiplier (charges_per_week : Z) : Q :=
  match assoc_get charging_multipliers charges_per_week with
  | Some m => m
  | None => 1.0
  end.

(** [compute_range_scenario(range_miles, charges_per_week, scenario_name,
    annual_vmt=annual_vmt)], threading the scenario cache. *)
Definition compute_range_scenario (cfg : list (string * ScenarioParams)) (cache : Cache)
  (range_miles : Q) (charges_per_week : Z) (scenario_name : string) (annual_vmt : Q)
  : Result RangeScenarioResult * Cache :=
  let base_ev_share := compute_ev_share_for_range range_miles None in
  let mult := _charging_frequency_multiplier charges_per_week in
  let ev_share := py_max 0.0 (py_min (base_ev_share * mult) 1.0) in
  let ev_vmt := ev_share * annual_vmt in
  let gas_vmt := annual_vmt - ev_vmt in
  let '(r, cache') := get_scenario_params cfg cache scenario_name in
  match r with
  | Err e => (Err e, cache')
  | Ok scenario_params =>
      let emissions_costs :=
        compute_emissions_and_costs range_miles ev_vmt gas_vmt scenario_params in
      (Ok (mkRangeScenarioResult range_miles charges_per_week scenario_name
             ev_share ev_vmt gas_vmt
             (co2_savings_tons emissions_costs) (capex_per_ton_usd emissions_costs)),
       cache')
  end.

End RangeScenarios.

Module RangeScenariosFacts.
Import Py EmissionsCosts VmtBins RangeScenarios EmissionsCostsFacts.

(** C4: [compute_range_scenario(100, 5, "Average", annual_vmt=12000)], with
    ["Average"] in the loaded scenario set, returns a result whose
    [ev_share] is [compute_ev_share_for_range(100)] and whose
    [ev_vmt + gas_vmt] is [12000]; the charging multiplier is the lookup
    [{2:0.85, 3:0.90, 5:1.00, 7:1.05}] with default [1.0]. *)
Theorem compute_range_scenario_average_100 (cfg : list (string * ScenarioParams))
  (cache : Cache) :
  In "Average"%string (dict_keys (fst (_load_scenarios_if_needed cfg cache))) ->
  (exists res cache',
     compute_range_scenario cfg cache 100 5 "Average" 12000 = (Ok res, cache') /\
     ev_share res == compute_ev_share_for_range 100 None /\
     ev_vmt res + gas_vmt res == 12000) /\
  (forall n : Z, _charging_frequency_multiplier n =
     if Z.eqb n 2 then 0.85 else if Z.eqb n 3 then 0.90
     else if Z.eqb n 5 then 1.00 else if Z.eqb n 7 then 1.05 else 1.0).
Proof.
  intros Hin. split.
  - unfold compute_range_scenario, get_scenario_params.
    destruct (_load_scenarios_if_needed cfg cache) as [scenarios cache'] eqn:Hl.
    simpl in Hin.
    destruct (dict_get scenarios "Average") as [p|] eqn:Hg.
    2:{ apply dict_get_none in Hg. contradiction. }
    do 2 eexists. split; [reflexivity|]. simpl. split; [|ring].
    set (b := compute_ev_share_for_range 100 None).
    assert (Hb : b <= 1).
    { unfold b. apply Qle_bool_iff. vm_compute. reflexivity. }
    assert (Hb0 : 0 <= b).
    { unfold b. apply Qle_bool_iff. vm_compute. reflexivity. }
    unfold _charging_frequency_multiplier; simpl.
    unfold py_max, py_min.
    Clamp.split_decs; lra.
  - intros n. unfold _charging_frequency_multiplier; simpl.
    destruct (Z.eqb n 2), (Z.eqb n 3), (Z.eqb n 5), (Z.eqb n 7); reflexivity.
Qed.

(** Scenario configuration with the three canonical names. *)
Definition example_cfg : list (string * ScenarioParams) :=
  [("Worst"%string, example_params); ("Average"%string, example_params);
   ("Best"%string, example_params)].

Lemma compute_range_scenario_average_100_witness :
  In "Average"%string (dict_keys (fst (_load_scenarios_if_needed example_cfg None))) /\
  (exists res cache',
     compute_range_scenario example_cfg None 100 5 "Average" 12000 = (Ok res, cache') /\
     ev_share res == compute_ev_share_for_range 100 None /\
     ev_vmt res + gas_vmt res == 12000).
Proof.
  assert (Hin : In "Average"%string
                  (dict_keys (fst (_load_scenarios_if_needed example_cfg None)))).
  { simpl. right. left. reflexivity. }
  split; [exact Hin|].
  exact (proj1 (compute_range_scenario_average_100 example_cfg None Hin)).
Defined.

End RangeScenariosFacts.

(* ------------------------------------------------------------------ *)
(** ** erev_calculations.py *)

Module ErevCalculations.
Import Py.
#[local] Open Scope string_scope.

(** [fetch_vm1_ldv_total_vmt_miles(2023)] (data/fhwa_api.py) returns the
    paper's constant without any download. *)
Definition VMT_TOTAL : Q := 3.2628e12.
Definition VMT_PER_VEH : Q := 11408.
Definition ETA_EV : Q := 3.6.
Definition MPG : Q := 26.4.
Definition G_CO2_GRID : Q := 348.
Definition CBAT : Q := 115.
Definition PE : Q := 0.25.
Definition PG : Q := 3.0.
Definition BATTERY_LIFE_YRS : Q := 10.

Definition GGAS : Q := 8887 / MPG.
Definition GEV : Q := (1 / ETA_EV) * G_CO2_GRID.

(** [EV_SHARE_BASE], in its literal order. *)
Definition EV_SHARE_BASE : list (Q * Q) :=
  [(25, 0.55); (50, 0.733); (75, 0.79); (100, 0.84); (125, 0.86); (150, 0.868)].

(** [SCENARIOS]: name -> (grid_mult, cost_mult). *)
Definition SCENARIOS : list (string * (Q * Q)) :=
  [("Worst", (1.2, 1.3)); ("Average", (1.0, 1.0)); ("Best", (0.7, 0.8))].

Fixpoint lookup_q {A : Type} (d : list (Q * A)) (k : Q) : option A :=
  match d with
  | [] => None
  | (k', v) :: d' => if Qeq_bool k k' then Some v else lookup_q d' k
  end.

Fixpoint lookup_s {A : Type} (d : list (string * A)) (k : string) : option A :=
  match d with
  | [] => None
  | (k', v) :: d' => if String.eqb k k' then Some v else lookup_s d' k
  end.

(** [sorted(d.items())]: insertion sort on the keys. *)
Fixpoint insert_item (kv : Q * Q) (xs : list (Q * Q)) : list (Q * Q) :=
  match xs with
  | [] => [kv]
  | kv' :: xs' => if Qle_bool (fst kv) (fst kv') then kv :: xs else kv' :: insert_item kv xs'
  end.

Definition sorted_items (xs : list (Q * Q)) : list (Q * Q) :=
  fold_right insert_item [] xs.

Fixpoint last_point (p : Q * Q) (ps : list (Q * Q)) : Q * Q :=
  match ps with
  | [] => p
  | p' :: ps' => last_point p' ps'
  end.

(** The interior case of [np.interp]: [xp[j] <= x < xp[j+1]] gives
    [slope * (x - xp[j]) + fp[j]]. *)
Fixpoint interp_segment (x : Q) (p : Q * Q) (ps : list (Q * Q)) : Q :=
  match ps with
  | [] => snd p
  | p' :: ps' =>
      if Qle_bool (fst p') x then interp_segment x p' ps'
      else (snd p' - snd p) / (fst p' - fst p) * (x - fst p) + snd p
  end.

(** [np.interp(x, keys, vals)] on the sorted, non-empty table: [fp[0]]
    left of [xp[0]], [fp[-1]] from [xp[-1]] on. *)
Definition np_interp (x : Q) (pts : list (Q * Q)) : Q :=
  match pts with
  | [] => 0
  | p :: ps =>
      let pl := last_point p ps in
      if Qlt_le_dec x (fst p) then snd p
      else if Qle_bool (fst pl) x then snd pl
      else interp_segment x p ps
  end.

Definition compute_fleet_size (vmt_total vmt_per_vehicle : Q) : Q :=
  vmt_total / vmt_per_vehicle.

Definition compute_battery_size (range_mi : Q) : Q := range_mi / ETA_EV.

Definition compute_installed_capacity_twh (n_veh range_mi : Q) : Q :=
  (n_veh * compute_battery_size range_mi) / 1e9.

(** [compute_ev_vmt_share(range_mi)]. *)
Definition compute_ev_vmt_share (range_mi : Q) : Q :=
  match lookup_q EV_SHARE_BASE range_mi with
  | Some v => v
  | None => np_interp range_mi (sorted_items EV_SHARE_BASE)
  end.

(** [compute_emissions(ev_vmt, gas_vmt, ggas, gev)] -> (EV_tons, Gas_tons, Savings_tons). *)
Definition compute_emissions (ev_vmt gas_vmt ggas gev : Q) : Q * Q * Q :=
  let ev_tons := (gev * ev_vmt) / 1e6 in
  let gas_tons := (ggas * gas_vmt) / 1e6 in
  let saved := gas_tons - ev_tons in
  (ev_tons, gas_tons, saved).

Record CostMetrics := mkCostMetrics {
  Cfleet_USD : Q;
  per_EV_mile : Q;   (* "$/EV_mile" *)
  per_tCO2 : Q       (* "$/tCO2" *)
}.

(** [compute_costs(range_mi, ev_vmt, co2_saved_tons, scenario)]: an
    unknown scenario raises [KeyError], a zero [ev_vmt] or zero savings a
    [ZeroDivisionError] (Python floats). *)
Definition compute_costs (range_mi ev_vmt co2_saved_tons : Q) (scenario : string)
  : Result CostMetrics :=
  let n_veh := compute_fleet_size VMT_TOTAL VMT_PER_VEH in
  s <- (match lookup_s SCENARIOS scenario with
        | Some s => Ok s
        | None => Err (KeyError (str_repr scenario))
        end) ;;
  let cbat_eff := CBAT * snd s in
  let grid_mult := fst s in
  let gev_eff := GEV * grid_mult in
  let s_kwh := compute_battery_size range_mi in
  let cfleet := n_veh * s_kwh * cbat_eff in
  capex_per_evmi <- py_div cfleet ev_vmt ;;
  capex_per_ton <- py_div (cfleet / BATTERY_LIFE_YRS) co2_saved_tons ;;
  Ok (mkCostMetrics cfleet capex_per_evmi capex_per_ton).

(** One row of the results table (before the derived columns). *)
Record Row := mkRow {
  Scenario : string;
  Range_mi : Q;
  EV_share : Q;
  EV_VMT : Q;
  Gas_VMT : Q;
  Installed_TWh : Q;
  CO2_saved_tons : Q;
  costs : CostMetrics
}.

(** The body of the inner loop of [run_erev_analysis]. *)
Definition erev_row (n_veh : Q) (sc : string) (r : Q) : Result Row :=
  let share := compute_ev_vmt_share r in
  let ev_vmt := VMT_TOTAL * share in
  let gas_vmt := VMT_TOTAL - ev_vmt in
  let '(ev_t, gas_t, saved_t) := compute_emissions ev_vmt gas_vmt GGAS GEV in
  let installed_twh := compute_installed_capacity_twh n_veh r in
  cost_metrics <- compute_costs r ev_vmt saved_t sc ;;
  Ok (mkRow sc r share ev_vmt gas_vmt installed_twh saved_t cost_metrics).

Fixpoint map_result {A B : Type} (f : A -> Result B) (xs : list A) : Result (list B) :=
  match xs with
  | [] => Ok []
  | x :: xs' => y <- f x ;; ys <- map_result f xs' ;; Ok (y :: ys)
  end.

(** [run_erev_analysis(ranges, scenarios, save_csv=False)]: the rows in
    loop order (scenarios outer, ranges inner).  The derived columns
    [CO2_saved_Mt], [$ per EV-mile], [$ per ton CO2] are functions of the
    row, and writing the CSV does not change the result. *)
Definition run_erev_analysis (ranges : option (list Q)) (scenarios : option (list string))
  : Result (list Row) :=
  let ranges := match ranges with None => [25; 50; 75; 100; 125; 150] | Some rs => rs end in
  let scenarios := match scenarios with None => ["Worst"; "Average"; "Best"] | Some s => s end in
  let n_veh := compute_fleet_size VMT_TOTAL VMT_PER_VEH in
  rows <- map_result (fun sc => map_result (erev_row n_veh sc) ranges) scenarios ;;
  Ok (List.concat rows).

Definition CO2_saved_Mt (row : Row) : Q := CO2_saved_tons row / 1e6.

End ErevCalculations.

Module ErevFacts.
Import Py ErevCalculations QFacts.
#[local] Open Scope string_scope.

Lemma map_result_in {A B : Type} (f : A -> Result B) (xs : list A) (ys : list B) (y : B) :
  map_result f xs = Ok ys -> In y ys -> exists x, In x xs /\ f x = Ok y.
Proof.
  revert ys. induction xs as [|x xs IH]; intros ys H Hy; simpl in H.
  - injection H as <-. destruct Hy.
  - destruct (f x) as [b|e] eqn:Hf; [|discriminate].
    simpl in H. destruct (map_result f xs) as [bs|e] eqn:Hr; [|discriminate].
    simpl in H. injection H as <-.
    destruct Hy as [<-|Hy].
    + exists x. split; [left; reflexivity | exact Hf].
    + destruct (IH bs eq_refl Hy) as (x' & Hx' & Hf').
      exists x'. split; [right; exact Hx' | exact Hf'].
Qed.

Lemma run_erev_analysis_in (ranges : option (list Q)) (scs : option (list string))
  (rows : list Row) (x : Row) :
  run_erev_analysis ranges scs = Ok rows -> In x rows ->
  exists sc, erev_row (compute_fleet_size VMT_TOTAL VMT_PER_VEH) sc (Range_mi x) = Ok x.
Proof.
  unfold run_erev_analysis. intros H Hx.
  match type of H with
  | Py.bind ?m _ = _ => destruct m as [rss|e] eqn:Hm; [|discriminate]
  end.
  simpl in H. injection H as <-.
  apply in_concat in Hx as (rs & Hrs & Hx).
  destruct (map_result_in _ _ _ _ Hm Hrs) as (sc & _ & Hsc).
  destruct (map_result_in _ _ _ _ Hsc Hx) as (r & _ & Hr).
  exists sc.
  assert (Er : Range_mi x = r).
  { unfold erev_row in Hr. destruct (compute_emissions _ _ _ _) as [[? ?] ?].
    simpl in Hr. destruct compute_costs; [|discriminate].
    injection Hr as <-. reflexivity. }
  rewrite Er. exact Hr.
Qed.

Definition cost_mult_of (sc : string) : option Q := option_map snd (lookup_s SCENARIOS sc).

Lemma compute_costs_cost_mult (r ev saved : Q) (sc1 sc2 : string) (c1 c2 : CostMetrics) :
  compute_costs r ev saved sc1 = Ok c1 -> compute_costs r ev saved sc2 = Ok c2 ->
  cost_mult_of sc1 = cost_mult_of sc2 -> c1 = c2.
Proof.
  unfold compute_costs, cost_mult_of.
  destruct (lookup_s SCENARIOS sc1) as [[g1 m1]|]; [|discriminate].
  destruct (lookup_s SCENARIOS sc2) as [[g2 m2]|]; [|discriminate].
  simpl. intros H1 H2 E. injection E as <-. congruence.
Qed.

Lemma erev_row_fields (n_veh : Q) (sc : string) (r : Q) (row : Row) :
  erev_row n_veh sc r = Ok row ->
  let share := compute_ev_vmt_share r in
  let ev_vmt := VMT_TOTAL * share in
  let gas_vmt := VMT_TOTAL - ev_vmt in
  Scenario row = sc /\ Range_mi row = r /\ EV_share row = share /\
  EV_VMT row = ev_vmt /\ Gas_VMT row = gas_vmt /\
  Installed_TWh row = compute_installed_capacity_twh n_veh r /\
  CO2_saved_tons row = snd (compute_emissions ev_vmt gas_vmt GGAS GEV) /\
  compute_costs r ev_vmt (CO2_saved_tons row) sc = Ok (costs row).
Proof.
  unfold erev_row. simpl. intros H.
  destruct (compute_costs _ _ _ sc) as [c|e] eqn:Hc; [|discriminate].
  simpl in H. injection H as <-. simpl.
  repeat split; assumption.
Qed.

(** C8: in the result of [run_erev_analysis], two rows for the same range
    agree on [EV_share], [EV_VMT], [Gas_VMT], [Installed_TWh] and
    [CO2_saved_tons] whatever their scenarios: [grid_mult] reaches no
    output.  The cost columns depend on the scenario only through its
    [cost_mult]. *)
Theorem run_erev_analysis_scenario_independent (ranges : option (list Q))
  (scs : option (list string)) (rows : list Row) (x y : Row) :
  run_erev_analysis ranges scs = Ok rows -> In x rows -> In y rows ->
  Range_mi x = Range_mi y ->
  EV_share x = EV_share y /\ EV_VMT x = EV_VMT y /\ Gas_VMT x = Gas_VMT y /\
  Installed_TWh x = Installed_TWh y /\ CO2_saved_tons x = CO2_saved_tons y /\
  (cost_mult_of (Scenario x) = cost_mult_of (Scenario y) -> costs x = costs y).
Proof.
  intros H Hx Hy Er.
  destruct (run_erev_analysis_in _ _ _ _ H Hx) as [scx Hrx].
  destruct (run_erev_analysis_in _ _ _ _ H Hy) as [scy Hry].
  rewrite Er in Hrx.
  destruct (erev_row_fields _ _ _ _ Hrx) as (Sx & _ & Shx & Evx & Gx & Ix & Cx & Kx).
  destruct (erev_row_fields _ _ _ _ Hry) as (Sy & _ & Shy & Evy & Gy & Iy & Cy & Ky).
  repeat split; try congruence.
  intros Em. rewrite Sx, Sy in Em.
  rewrite Cx, <- Cy in Kx.
  exact (compute_costs_cost_mult _ _ _ _ _ _ _ Kx Ky Em).
Qed.

Lemma run_erev_analysis_scenario_independent_witness :
  exists rows x y,
    run_erev_analysis (Some [100]) (Some ["Worst"; "Best"]) = Ok rows /\
    In x rows /\ In y rows /\ Range_mi x = Range_mi y /\ Scenario x <> Scenario y /\
    (EV_share x = EV_share y /\ EV_VMT x = EV_VMT y /\ Gas_VMT x = Gas_VMT y /\
     Installed_TWh x = Installed_TWh y /\ CO2_saved_tons x = CO2_saved_tons y /\
     (cost_mult_of (Scenario x) = cost_mult_of (Scenario y) -> costs x = costs y)).
Proof.
  do 3 eexists.
  split; [vm_compute; reflexivity|].
  split; [left; reflexivity|].
  split; [right; left; reflexivity|].
  split; [reflexivity|].
  split; [discriminate|].
  eapply (run_erev_analysis_scenario_independent (Some [100]) (Some ["Worst"; "Best"])).
  - vm_compute. reflexivity.
  - left. reflexivity.
  - right. left. reflexivity.
  - reflexivity.
Defined.

(** C7: [run_erev_analysis(ranges=[100], scenarios=["Average"])] returns
    exactly one row, with [EV_share = 0.84] and
    [Gas_VMT = VMT_TOTAL - EV_VMT]. *)
Theorem run_erev_analysis_average_100 :
  exists row,
    run_erev_analysis (Some [100]) (Some ["Average"]) = Ok [row] /\
    EV_share row = 0.84 /\ Gas_VMT row = VMT_TOTAL - EV_VMT row.
Proof.
  eexists. split; [vm_compute; reflexivity|].
  split; reflexivity.
Qed.

Lemma GGAS_pos : 0 < GGAS.
Proof. reflexivity. Qed.

(** C9: the paper path's savings are [GGAS*gas_vmt/1e6 - GEV*ev_vmt/1e6];
    they equal the avoided emissions [ev_vmt*(GGAS-GEV)/1e6] only when
    [gas_vmt = ev_vmt]; they are negative whenever [GEV*ev_vmt > GGAS*gas_vmt],
    which holds at range 100 (share 0.84), where the row's savings are
    negative. *)
Theorem compute_emissions_savings (ev_vmt gas_vmt : Q) :
  let saved := snd (compute_emissions ev_vmt gas_vmt GGAS GEV) in
  saved == GGAS * gas_vmt / 1e6 - GEV * ev_vmt / 1e6 /\
  (saved == ev_vmt * (GGAS - GEV) / 1e6 <-> gas_vmt == ev_vmt) /\
  (GGAS * gas_vmt < GEV * ev_vmt -> saved < 0) /\
  (compute_ev_vmt_share 100 = 0.84 /\
   GGAS * (VMT_TOTAL - VMT_TOTAL * 0.84) < GEV * (VMT_TOTAL * 0.84) /\
   snd (compute_emissions (VMT_TOTAL * 0.84) (VMT_TOTAL - VMT_TOTAL * 0.84) GGAS GEV) < 0).
Proof.
  simpl. pose proof GGAS_pos as Hg.
  split; [|split; [|split]].
  - unfold Qdiv. ring.
  - split.
    + intros H.
      assert (H' : GGAS * (gas_vmt - ev_vmt) == 0).
      { unfold Qdiv in H.
        change (/ 1e6) with (1 # 1000000) in H. nra. }
      destruct (Qeq_dec (gas_vmt - ev_vmt) 0) as [E|E]; [lra|].
      exfalso. apply Qmult_integral in H' as [H'|H']; [lra|contradiction].
    + intros H. rewrite H. unfold Qdiv. ring.
  - intros H. unfold Qdiv.
    change (/ 1e6) with (1 # 1000000). nra.
  - split; [reflexivity|]. split; reflexivity.
Qed.

Lemma share_table :
  sorted_items EV_SHARE_BASE = EV_SHARE_BASE.
Proof. reflexivity. Qed.

(** C10: outside [25..150] the fixed table is clamped: [0.55] for every
    [range_mi <= 25], [0.868] for every [range_mi >= 150]; so the default
    scenarios at range [0] give three rows, each with [EV_share = 0.55]. *)
Theorem compute_ev_vmt_share_clamped :
  (forall r : Q, r <= 25 -> compute_ev_vmt_share r = 0.55) /\
  (forall r : Q, 150 <= r -> compute_ev_vmt_share r = 0.868) /\
  (exists rows, run_erev_analysis (Some [0]) None = Ok rows /\
     List.length rows = 3%nat /\ Forall (fun row => EV_share row = 0.55) rows).
Proof.
  split; [|split].
  - intros r Hr. unfold compute_ev_vmt_share. rewrite share_table.
    simpl lookup_q.
    destruct (Qeq_bool r 25) eqn:E1; [reflexivity|].
    destruct (Qeq_bool r 50) eqn:E2; [apply Qeq_bool_iff in E2; lra|].
    destruct (Qeq_bool r 75) eqn:E3; [apply Qeq_bool_iff in E3; lra|].
    destruct (Qeq_bool r 100) eqn:E4; [apply Qeq_bool_iff in E4; lra|].
    destruct (Qeq_bool r 125) eqn:E5; [apply Qeq_bool_iff in E5; lra|].
    destruct (Qeq_bool r 150) eqn:E6; [apply Qeq_bool_iff in E6; lra|].
    apply Qeq_bool_neq in E1. unfold np_interp. simpl.
    destruct (Qlt_le_dec r 25); [reflexivity|].
    exfalso. apply E1. apply Qle_antisym; assumption.
  - intros r Hr. unfold compute_ev_vmt_share. rewrite share_table.
    simpl lookup_q.
    destruct (Qeq_bool r 25) eqn:E1; [apply Qeq_bool_iff in E1; lra|].
    destruct (Qeq_bool r 50) eqn:E2; [apply Qeq_bool_iff in E2; lra|].
    destruct (Qeq_bool r 75) eqn:E3; [apply Qeq_bool_iff in E3; lra|].
    destruct (Qeq_bool r 100) eqn:E4; [apply Qeq_bool_iff in E4; lra|].
    destruct (Qeq_bool r 125) eqn:E5; [apply Qeq_bool_iff in E5; lra|].
    destruct (Qeq_bool r 150) eqn:E6; [reflexivity|].
    unfold np_interp. simpl.
    destruct (Qlt_le_dec r 25); [lra|].
    replace (Qle_bool 150 r) with true; [reflexivity|].
    symmetry. apply Qle_bool_iff. exact Hr.
  - eexists. split; [vm_compute; reflexivity|].
    split; [reflexivity|].
    repeat constructor.
Qed.

End ErevFacts.

(* ------------------------------------------------------------------ *)
(** ** data/loaders.py *)

Module Loaders.
Import VmtBins.

(** [b.share_of_trips /= total] over all bins, as in [default_trip_bins]
    and [load_trip_bins_from_csv]. *)
Definition renormalise (total : Q) (bins : list TripBin) : list TripBin :=
  map (fun b => mkTripBin (lower b) (upper b) (share_of_trips b / total)) bins.

(** [load_trip_bins_from_csv(csv_path)] after [pd.read_csv]: one
    [(bin_lower_miles, bin_upper_miles, share_of_trips)] per CSV row, a
    blank/NaN upper bound read as [None].  The missing-file and
    missing-column checks are I/O and not modelled; [inl msg] is the
    [ValueError]. *)
Definition load_trip_bins_from_rows (rows : list (Q * option Q * Q))
  : string + list TripBin :=
  let bins := map (fun '(lo, up, sh) => mkTripBin lo up sh) rows in
  let total_share := sum (map share_of_trips bins) in
  if Qle_bool total_share 0 then inl "Sum of share_of_trips must be > 0"%string
  else inr (renormalise total_share bins).

End Loaders.

Module VmtBinsExtra.
Import VmtBins QFacts Clamp EvShareShape EvShare Loaders.

Lemma sum_map_div (xs : list Q) (T : Q) : ~ T == 0 ->
  sum (map (fun x => x / T) xs) == sum xs / T.
Proof.
  intros HT. induction xs as [|x xs IH]; simpl.
  - field; exact HT.
  - rewrite IH. field; exact HT.
Qed.

(** [compute_vmt_shares] returns the bin midpoints as distances; the VMT
    shares sum to 1 and have one entry per bin, unless the total VMT
    [sum(share_of_trips * midpoint)] is 0 (numpy's nan/inf case). *)
Theorem compute_vmt_shares_sum_one (bins : list TripBin) :
  snd (compute_vmt_shares bins) = map midpoint bins /\
  match fst (compute_vmt_shares bins) with
  | None => total_vmt bins == 0
  | Some v => sum v == 1 /\ List.length v = List.length bins
  end.
Proof.
  unfold compute_vmt_shares. simpl. split; [reflexivity|].
  fold (raw_vmt bins). fold (total_vmt bins).
  destruct (Qeq_bool (total_vmt bins) 0) eqn:E.
  - apply Qeq_bool_iff in E. exact E.
  - apply Qeq_bool_neq in E. split.
    + rewrite sum_map_div by exact E. unfold total_vmt in *. field. exact E.
    + unfold raw_vmt. rewrite !length_map. reflexivity.
Qed.




Fixpoint ev_miles (r : Q) (bins : list TripBin) : Q :=
  match bins with
  | [] => 0
  | b :: bs => share_of_trips b * Qmin (midpoint b) r + ev_miles r bs
  end.

Lemma term_min (s d r : Q) : 1e-6 <= d ->
  s * d * Qmin 1.0 (r / Qmax d 1e-6) == s * Qmin d r.
Proof.
  intros Hd.
  assert (Hm : Qmax d 1e-6 == d) by (apply Q.max_l; exact Hd).
  assert (Hd0 : 0 < d) by (eapply Qlt_le_trans; [|exact Hd]; reflexivity).
  rewrite Hm.
  destruct (Qlt_le_dec r d) as [Hlt|Hle].
  - rewrite (Q.min_r d r) by lra.
    rewrite Q.min_r.
    + field. intros E. rewrite E in Hd0. discriminate.
    + assert (r / d <= 1) by (apply div_le_one; lra). lra.
  - rewrite (Q.min_l d r) by exact Hle.
    rewrite Q.min_l.
    + ring.
    + assert (1 <= r / d) by (apply one_le_div; assumption). lra.
Qed.

(** The docstring's model: when every bin midpoint is at least [1e-6], a
    trip of distance [d] runs [min(d, range)] miles on electricity, and the
    EV share is the clamp of [sum(share * min(d, range)) / sum(share * d)]. *)
Theorem compute_ev_share_for_range_min_miles (r : Q) (bins : list TripBin) :
  Forall (fun b => 1e-6 <= midpoint b) bins -> ~ total_vmt bins == 0 ->
  compute_ev_share_for_range r (Some bins) == clamp (ev_miles r bins / total_vmt bins).
Proof.
  intros Hd HT. rewrite share_W by exact HT.
  assert (E : W r bins == ev_miles r bins).
  { clear HT. induction bins as [|b bs IH]; [reflexivity|].
    inversion Hd as [|? ? Hb Hbs]; subst.
    rewrite W_cons, IH by exact Hbs. simpl.
    rewrite term_min by exact Hb. reflexivity. }
  rewrite E. reflexivity.
Qed.

Lemma compute_ev_share_for_range_min_miles_witness :
  Forall (fun b => 1e-6 <= midpoint b) default_trip_bins /\
  ~ total_vmt default_trip_bins == 0 /\
  compute_ev_share_for_range 100 (Some default_trip_bins)
    == clamp (ev_miles 100 default_trip_bins / total_vmt default_trip_bins).
Proof.
  assert (Hd : Forall (fun b => 1e-6 <= midpoint b) default_trip_bins).
  { repeat constructor; apply Qle_bool_iff; reflexivity. }
  assert (HT : ~ total_vmt default_trip_bins == 0).
  { intros E. apply Qeq_bool_iff in E. vm_compute in E. discriminate. }
  split; [exact Hd|]. split; [exact HT|].
  exact (compute_ev_share_for_range_min_miles 100 default_trip_bins Hd HT).
Defined.




Lemma midpoint_renorm (b : TripBin) (c : Q) :
  midpoint (mkTripBin (lower b) (upper b) c) = midpoint b.
Proof. destruct b; reflexivity. Qed.

Lemma sum_shares_renorm (t : Q) (bins : list TripBin) : ~ t == 0 ->
  sum (map share_of_trips (renormalise t bins)) == sum (map share_of_trips bins) / t.
Proof.
  intros Ht. induction bins as [|b bs IH]; simpl.
  - field. exact Ht.
  - unfold renormalise in IH. rewrite IH. field. exact Ht.
Qed.

Lemma total_vmt_renorm (t : Q) (bins : list TripBin) : ~ t == 0 ->
  total_vmt (renormalise t bins) == total_vmt bins / t.
Proof.
  intros Ht. induction bins as [|b bs IH].
  - unfold total_vmt, raw_vmt. simpl. field. exact Ht.
  - unfold total_vmt, raw_vmt in *. simpl in *.
    rewrite IH, midpoint_renorm. field. exact Ht.
Qed.

Lemma W_renorm (r t : Q) (bins : list TripBin) : ~ t == 0 ->
  W r (renormalise t bins) == W r bins / t.
Proof.
  intros Ht. induction bins as [|b bs IH].
  - unfold renormalise. simpl map. rewrite !W_nil. field. exact Ht.
  - unfold renormalise in *. simpl map. rewrite !W_cons, IH. simpl.
    rewrite midpoint_renorm. field. exact Ht.
Qed.

Lemma share_renorm (r t : Q) (bins : list TripBin) : ~ t == 0 ->
  compute_ev_share_for_range r (Some (renormalise t bins))
    == compute_ev_share_for_range r (Some bins).
Proof.
  intros Ht.
  destruct (Qeq_dec (total_vmt bins) 0) as [H0|H0].
  - rewrite !share_degenerate; [reflexivity|exact H0|].
    rewrite total_vmt_renorm by exact Ht. rewrite H0. reflexivity.
  - assert (H1 : ~ total_vmt (renormalise t bins) == 0).
    { rewrite total_vmt_renorm by exact Ht. intros E. apply H0.
      setoid_replace (total_vmt bins) with (total_vmt bins / t * t) by (field; exact Ht).
      rewrite E. reflexivity. }
    rewrite !share_W by assumption.
    rewrite W_renorm, total_vmt_renorm by exact Ht.
    apply clamp_proper. field. split; assumption.
Qed.

(** Dividing every trip share by the same non-zero number (the
    [b.share_of_trips /= total_share] step of [default_trip_bins] and of
    [load_trip_bins_from_csv]) never changes the EV share for any range:
    only the relative trip shares matter. *)
Theorem compute_ev_share_for_range_renormalise_invariant (r t : Q) (bins : list TripBin) :
  ~ t == 0 ->
  compute_ev_share_for_range r (Some (renormalise t bins))
    == compute_ev_share_for_range r (Some bins).
Proof. apply share_renorm. Qed.

Lemma compute_ev_share_for_range_renormalise_invariant_witness :
  ~ (2 : Q) == 0 /\
  compute_ev_share_for_range 30 (Some (renormalise 2 default_trip_bins))
    == compute_ev_share_for_range 30 (Some default_trip_bins).
Proof.
  assert (Ht : ~ (2 : Q) == 0) by discriminate.
  split; [exact Ht|].
  exact (compute_ev_share_for_range_renormalise_invariant 30 2 default_trip_bins Ht).
Defined.

Definition bins_of_rows (rows : list (Q * option Q * Q)) : list TripBin :=
  map (fun '(lo, up, sh) => mkTripBin lo up sh) rows.

(** [load_trip_bins_from_csv] raises [ValueError] exactly when the CSV's
    trip shares sum to [<= 0]; otherwise the loaded shares sum to 1, every
    bin keeps its bounds, and the loaded bins give the same EV share as the
    raw CSV shares for every range. *)
Theorem load_trip_bins_from_rows_spec (rows : list (Q * option Q * Q)) :
  match load_trip_bins_from_rows rows with
  | inl _ => sum (map share_of_trips (bins_of_rows rows)) <= 0
  | inr bins =>
      0 < sum (map share_of_trips (bins_of_rows rows)) /\
      sum (map share_of_trips bins) == 1 /\
      map (fun b => (lower b, upper b)) bins
        = map (fun b => (lower b, upper b)) (bins_of_rows rows) /\
      forall r, compute_ev_share_for_range r (Some bins)
                == compute_ev_share_for_range r (Some (bins_of_rows rows))
  end.
Proof.
  unfold load_trip_bins_from_rows. fold (bins_of_rows rows).
  set (raw := bins_of_rows rows).
  destruct (Qle_bool (sum (map share_of_trips raw)) 0) eqn:E.
  - apply Qle_bool_iff in E. exact E.
  - assert (Hpos : 0 < sum (map share_of_trips raw)).
    { apply Qnot_le_lt. intros H. apply Qle_bool_iff in H. congruence. }
    assert (Hne : ~ sum (map share_of_trips raw) == 0).
    { intros H. rewrite H in Hpos. discriminate. }
    split; [exact Hpos|]. split; [|split].
    + rewrite sum_shares_renorm by exact Hne. field. exact Hne.
    + unfold renormalise. rewrite map_map. reflexivity.
    + intros r. apply share_renorm. exact Hne.
Qed.

End VmtBinsExtra.

(* ------------------------------------------------------------------ *)
(** ** Scenario dictionary, cache, emissions and range scenarios *)

Module ScenarioExtra.
Import Py EmissionsCosts EmissionsCostsFacts RangeScenarios VmtBins QFacts Clamp
  EvShareShape EvShare.

(** [d[k] = v] on a Python dict: [k] then maps to [v], every other key
    keeps its value, and the key order is unchanged unless [k] is new, in
    which case it is appended. *)
Theorem dict_set_spec (d : dict) (k : string) (v : ScenarioParams) :
  dict_get (dict_set d k v) k = Some v /\
  (forall k', k' <> k -> dict_get (dict_set d k v) k' = dict_get d k') /\
  dict_keys (dict_set d k v) =
    if existsb (String.eqb k) (dict_keys d) then dict_keys d else dict_keys d ++ [k].
Proof.
  induction d as [|[k0 v0] d IH]; simpl.
  - rewrite String.eqb_refl. split; [reflexivity|]. split; [|reflexivity].
    intros k' Hk. destruct (String.eqb_spec k' k); [contradiction|reflexivity].
  - destruct IH as (IH1 & IH2 & IH3).
    destruct (String.eqb_spec k k0) as [->|Hne]; simpl.
    + rewrite String.eqb_refl. split; [reflexivity|]. split; [|reflexivity].
      intros k' Hk. destruct (String.eqb_spec k' k0); [contradiction|reflexivity].
    + destruct (String.eqb_spec k k0) as [|_]; [contradiction|].
      split; [exact IH1|]. split.
      * intros k' Hk. destruct (String.eqb k' k0); [reflexivity|]. apply IH2, Hk.
      * unfold dict_keys in IH3 |- *. rewrite IH3.
        destruct (existsb (String.eqb k) (map fst d)); reflexivity.
Qed.

Lemma existsb_eqb_in (k : string) (ks : list string) :
  existsb (String.eqb k) ks = true <-> In k ks.
Proof.
  rewrite existsb_exists. split.
  - intros [x [Hx E]]. apply String.eqb_eq in E. subst. exact Hx.
  - intros H. exists k. split; [exact H|apply String.eqb_refl].
Qed.

Lemma dict_set_keys_in (d : dict) (k nm : string) (v : ScenarioParams) :
  In nm (dict_keys (dict_set d k v)) <-> In nm (dict_keys d) \/ nm = k.
Proof.
  destruct (dict_set_spec d k v) as (_ & _ & Hk). rewrite Hk.
  destruct (existsb (String.eqb k) (dict_keys d)) eqn:E.
  - apply existsb_eqb_in in E. split; [tauto|]. intros [H| ->]; assumption.
  - rewrite in_app_iff. simpl. split.
    + intros [H|[<-|[]]]; [left; exact H|right; reflexivity].
    + intros [H| ->]; [left; exact H|right; left; reflexivity].
Qed.

Lemma dict_set_keys_nodup (d : dict) (k : string) (v : ScenarioParams) :
  NoDup (dict_keys d) -> NoDup (dict_keys (dict_set d k v)).
Proof.
  intros Hn. destruct (dict_set_spec d k v) as (_ & _ & Hk). rewrite Hk.
  destruct (existsb (String.eqb k) (dict_keys d)) eqn:E; [exact Hn|].
  apply NoDup_app; [exact Hn|repeat constructor; intros []|].
  intros x Hx [<-|[]]. apply existsb_eqb_in in Hx. congruence.
Qed.

Definition load_step (out : dict) (p : string * ScenarioParams) : dict :=
  let '(nm, params) := p in dict_set out nm params.

Lemma load_fold (cfg : list (string * ScenarioParams)) :
  load_scenario_params_from_yaml cfg = fold_left load_step cfg [].
Proof. reflexivity. Qed.

Lemma fold_load_keys (cfg : list (string * ScenarioParams)) (acc : dict) :
  (NoDup (dict_keys acc) -> NoDup (dict_keys (fold_left load_step cfg acc))) /\
  (forall nm, In nm (dict_keys (fold_left load_step cfg acc)) <->
              In nm (dict_keys acc) \/ In nm (map fst cfg)).
Proof.
  revert acc. induction cfg as [|[k v] cfg IH]; intros acc; simpl.
  - split; [tauto|]. intros nm. tauto.
  - destruct (IH (dict_set acc k v)) as [IH1 IH2]. split.
    + intros Hn. apply IH1, dict_set_keys_nodup, Hn.
    + intros nm. rewrite IH2, dict_set_keys_in. split.
      * intros [[H|H]|H]; [tauto|subst; tauto|tauto].
      * intros [H|[H|H]]; [tauto|subst; tauto|tauto].
Qed.

(** [load_scenario_params_from_yaml]: the loaded dict never holds a name
    twice, and its names are exactly the names of the YAML entries. *)
Theorem load_scenario_params_from_yaml_keys (cfg : list (string * ScenarioParams)) :
  NoDup (dict_keys (load_scenario_params_from_yaml cfg)) /\
  (forall nm, In nm (dict_keys (load_scenario_params_from_yaml cfg)) <-> In nm (map fst cfg)).
Proof.
  rewrite load_fold. destruct (fold_load_keys cfg []) as [H1 H2].
  split; [apply H1; constructor|].
  intros nm. rewrite H2. simpl. tauto.
Qed.

Lemma dict_set_new (d : dict) (k : string) (v : ScenarioParams) :
  ~ In k (dict_keys d) -> dict_set d k v = d ++ [(k, v)].
Proof.
  induction d as [|[k0 v0] d IH]; simpl; intros Hk; [reflexivity|].
  destruct (String.eqb_spec k k0) as [->|Hne].
  - exfalso. apply Hk. left. reflexivity.
  - rewrite IH; [reflexivity|]. intros H. apply Hk. right. exact H.
Qed.

Lemma fold_load_distinct (cfg : list (string * ScenarioParams)) (acc : dict) :
  NoDup (map fst (acc ++ cfg)) -> fold_left load_step cfg acc = acc ++ cfg.
Proof.
  revert acc. induction cfg as [|[k v] cfg IH]; intros acc Hn; simpl.
  - rewrite app_nil_r. reflexivity.
  - assert (Hk : ~ In k (dict_keys acc)).
    { rewrite map_app in Hn. simpl in Hn. apply NoDup_remove_2 in Hn.
      intros H. apply Hn, in_or_app. left. exact H. }
    rewrite dict_set_new by exact Hk.
    rewrite IH.
    + rewrite <- app_assoc. reflexivity.
    + rewrite <- app_assoc. exact Hn.
Qed.

(** [load_scenario_params_from_yaml]: when the YAML scenario names are
    distinct (as the keys of a YAML mapping are), the loaded dict holds
    exactly the YAML entries, in file order. *)
Theorem load_scenario_params_from_yaml_distinct (cfg : list (string * ScenarioParams)) :
  NoDup (map fst cfg) -> load_scenario_params_from_yaml cfg = cfg.
Proof.
  intros Hn. rewrite load_fold. apply fold_load_distinct. exact Hn.
Qed.

Lemma load_scenario_params_from_yaml_distinct_witness :
  NoDup (map fst RangeScenariosFacts.example_cfg) /\
  load_scenario_params_from_yaml RangeScenariosFacts.example_cfg
    = RangeScenariosFacts.example_cfg.
Proof.
  assert (Hn : NoDup (map fst RangeScenariosFacts.example_cfg)).
  { unfold RangeScenariosFacts.example_cfg. simpl.
    repeat (constructor; [simpl; intuition discriminate|]). constructor. }
  split; [exact Hn|].
  exact (load_scenario_params_from_yaml_distinct RangeScenariosFacts.example_cfg Hn).
Defined.

Lemma get_scenario_params_eq (cfg : list (string * ScenarioParams)) (cache : Cache)
  (nm : string) :
  get_scenario_params cfg cache nm =
  (match dict_get (fst (_load_scenarios_if_needed cfg cache)) nm with
   | None => Err (KeyError (unknown_scenario_msg nm
                 (dict_keys (fst (_load_scenarios_if_needed cfg cache)))))
   | Some p => Ok p
   end, snd (_load_scenarios_if_needed cfg cache)).
Proof.
  unfold get_scenario_params.
  destruct (_load_scenarios_if_needed cfg cache) as [d c]. simpl.
  destruct (dict_get d nm); reflexivity.
Qed.


(** [compute_emissions_and_costs]: the baseline and the gasoline part
    share the gasoline miles, so the CO2 and operating-cost savings depend
    on [ev_vmt] only: per electric mile they are the gasoline figure minus
    the grid figure. *)
Theorem compute_emissions_and_costs_savings (range_miles ev_vmt gas_vmt : Q)
  (params : ScenarioParams) :
  let res := compute_emissions_and_costs range_miles ev_vmt gas_vmt params in
  co2_savings_tons res ==
    ev_vmt * (gas_litre_per_mile params * gas_co2_kg_per_litre params
              - ev_kwh_per_mile params * grid_co2_kg_per_kwh params) / 1000 /\
  net_operating_savings_usd res ==
    ev_vmt * (gas_litre_per_mile params * gas_price_usd_per_litre params
              - ev_kwh_per_mile params * electricity_price_usd_per_kwh params).
Proof.
  simpl. split; [field|ring].
Qed.


Lemma clamp_py (x : Q) : py_max 0.0 (py_min x 1.0) = clamp x.
Proof. reflexivity. Qed.


Lemma share_mono (bins : list TripBin) (r1 r2 : Q) :
  Forall (fun b => 0 <= share_of_trips b) bins -> 0 <= r1 -> r1 <= r2 ->
  compute_ev_share_for_range r1 (Some bins) <= compute_ev_share_for_range r2 (Some bins).
Proof.
  intros Hs H0 H12.
  pose proof eps_pos as He.
  destruct (Qeq_dec (total_vmt bins) 0) as [HT|HT].
  { rewrite !share_degenerate by exact HT. apply Qle_refl. }
  rewrite !share_W by exact HT.
  set (T := total_vmt bins) in *.
  destruct (Qlt_le_dec T 0) as [Hneg|Hpos].
  - destruct (Qlt_le_dec r2 eps) as [H2|H2].
    + apply below_mono; lra.
    + assert (E : clamp (W r2 bins / T) == 1)
        by (apply above_saturated_neg; assumption).
      rewrite E. apply clamp_bounds.
  - assert (HT0 : 0 < T).
    { destruct (Qle_lt_or_eq 0 T Hpos) as [H|H]; [exact H|].
      exfalso. apply HT. rewrite H. reflexivity. }
    destruct (Qlt_le_dec eps r2) as [H2|H2]; [|apply below_mono; lra].
    destruct (Qlt_le_dec r1 eps) as [H1|H1].
    + apply Qle_trans with (clamp (W eps bins / T)).
      * apply below_mono; lra.
      * apply above_mono_pos; try assumption; lra.
    + apply above_mono_pos; assumption.
Qed.

Lemma share_None (r : Q) :
  compute_ev_share_for_range r None = compute_ev_share_for_range r (Some default_trip_bins).
Proof. cbv delta [compute_ev_share_for_range] beta iota zeta. reflexivity. Qed.

Lemma default_shares_nonneg : Forall (fun b => 0 <= share_of_trips b) default_trip_bins.
Proof. repeat constructor; apply Qle_bool_iff; reflexivity. Qed.

Lemma mult_nonneg (cpw : Z) : 0 <= _charging_frequency_multiplier cpw.
Proof.
  unfold _charging_frequency_multiplier. simpl.
  repeat destruct (Z.eqb _ _); apply Qle_bool_iff; reflexivity.
Qed.

Lemma crs_ev_share (cfg : list (string * ScenarioParams)) (cache : Cache)
  (r : Q) (cpw : Z) (nm : string) (a : Q) (res : RangeScenarioResult) :
  fst (compute_range_scenario cfg cache r cpw nm a) = Ok res ->
  ev_share res = clamp (compute_ev_share_for_range r None * _charging_frequency_multiplier cpw).
Proof.
  unfold compute_range_scenario. rewrite get_scenario_params_eq.
  destruct (dict_get _ nm); cbv beta iota zeta; cbn [fst]; intros H; [|discriminate].
  pose proof (f_equal (fun m => match m with Ok x => ev_share x | Err _ => 0 end) H) as E.
  cbv beta iota in E. rewrite <- E. cbn [ev_share]. apply clamp_py.
Qed.

(** [compute_range_scenario]: for a fixed charging frequency, scenario and
    annual mileage, the reported EV share never decreases as the electric
    range grows from [0]. *)
Theorem compute_range_scenario_range_monotone (cfg : list (string * ScenarioParams))
  (cache : Cache) (cpw : Z) (nm : string) (a r1 r2 : Q) :
  0 <= r1 -> r1 <= r2 ->
  match fst (compute_range_scenario cfg cache r1 cpw nm a),
        fst (compute_range_scenario cfg cache r2 cpw nm a) with
  | Ok x, Ok y => ev_share x <= ev_share y
  | _, _ => True
  end.
Proof.
  intros H0 H12.
  destruct (fst (compute_range_scenario cfg cache r1 cpw nm a)) as [x|] eqn:E1; [|exact I].
  destruct (fst (compute_range_scenario cfg cache r2 cpw nm a)) as [y|] eqn:E2; [|exact I].
  rewrite (crs_ev_share _ _ _ _ _ _ _ E1), (crs_ev_share _ _ _ _ _ _ _ E2).
  apply clamp_mono, Qmult_le_compat_r; [|apply mult_nonneg].
  rewrite !share_None.
  apply share_mono; [exact default_shares_nonneg|exact H0|exact H12].
Qed.

Lemma compute_range_scenario_range_monotone_witness :
  0 <= 50 /\ 50 <= 100 /\
  match fst (compute_range_scenario RangeScenariosFacts.example_cfg None 50 3 "Best" 12000),
        fst (compute_range_scenario RangeScenariosFacts.example_cfg None 100 3 "Best" 12000) with
  | Ok x, Ok y => ev_share x <= ev_share y
  | _, _ => True
  end.
Proof.
  assert (H0 : 0 <= 50) by (apply Qle_bool_iff; reflexivity).
  assert (H1 : 50 <= 100) by (apply Qle_bool_iff; reflexivity).
  split; [exact H0|]. split; [exact H1|].
  exact (compute_range_scenario_range_monotone RangeScenariosFacts.example_cfg None 3
           "Best" 12000 50 100 H0 H1).
Defined.

(** [compute_range_scenario]: at a fixed range, a charging frequency with a
    larger [_charging_frequency_multiplier] never gives a smaller EV share
    (so 2, 3, 5, 7 charges per week are in increasing order). *)
Theorem compute_range_scenario_charging_monotone (cfg : list (string * ScenarioParams))
  (cache : Cache) (r : Q) (c1 c2 : Z) (nm : string) (a : Q) :
  _charging_frequency_multiplier c1 <= _charging_frequency_multiplier c2 ->
  match fst (compute_range_scenario cfg cache r c1 nm a),
        fst (compute_range_scenario cfg cache r c2 nm a) with
  | Ok x, Ok y => ev_share x <= ev_share y
  | _, _ => True
  end.
Proof.
  intros Hm.
  destruct (fst (compute_range_scenario cfg cache r c1 nm a)) as [x|] eqn:E1; [|exact I].
  destruct (fst (compute_range_scenario cfg cache r c2 nm a)) as [y|] eqn:E2; [|exact I].
  rewrite (crs_ev_share _ _ _ _ _ _ _ E1), (crs_ev_share _ _ _ _ _ _ _ E2).
  apply clamp_mono.
  assert (Hb : 0 <= compute_ev_share_for_range r None).
  { rewrite share_None, share_unfold.
    destruct Qeq_bool; [discriminate|apply clamp_bounds]. }
  rewrite (Qmult_comm _ (_charging_frequency_multiplier c1)),
    (Qmult_comm _ (_charging_frequency_multiplier c2)).
  apply Qmult_le_compat_r; assumption.
Qed.

Lemma compute_range_scenario_charging_monotone_witness :
  _charging_frequency_multiplier 2 <= _charging_frequency_multiplier 7 /\
  match fst (compute_range_scenario RangeScenariosFacts.example_cfg None 40 2 "Worst" 12000),
        fst (compute_range_scenario RangeScenariosFacts.example_cfg None 40 7 "Worst" 12000) with
  | Ok x, Ok y => ev_share x <= ev_share y
  | _, _ => True
  end.
Proof.
  assert (Hm : _charging_frequency_multiplier 2 <= _charging_frequency_multiplier 7)
    by (apply Qle_bool_iff; reflexivity).
  split; [exact Hm|].
  exact (compute_range_scenario_charging_monotone RangeScenariosFacts.example_cfg None 40
           2 7 "Worst" 12000 Hm).
Defined.

End ScenarioExtra.

(* ------------------------------------------------------------------ *)
(** ** erev_calculations.py: table interpolation, costs and the driver *)

Module ErevExtra.
Import Py ErevCalculations QFacts ErevFacts.
#[local] Open Scope string_scope.

(** The interpolated [EV_SHARE_BASE] table written out segment by segment,
    with the slopes [(fp[j+1] - fp[j]) / (xp[j+1] - xp[j])] evaluated. *)
Definition ev_share_pw (r : Q) : Q :=
  if Qlt_le_dec r 25 then 0.55
  else if Qlt_le_dec r 50 then (183 # 25000) * (r - 25) + 0.55
  else if Qlt_le_dec r 75 then (57 # 25000) * (r - 50) + 0.733
  else if Qlt_le_dec r 100 then (50 # 25000) * (r - 75) + 0.79
  else if Qlt_le_dec r 125 then (20 # 25000) * (r - 100) + 0.84
  else if Qlt_le_dec r 150 then (8 # 25000) * (r - 125) + 0.86
  else 0.868.

Ltac eval_slopes :=
  repeat match goal with
  | |- context [(?a - ?b) / (?c - ?d)] =>
      let v := eval vm_compute in ((a - b) / (c - d)) in
      change ((a - b) / (c - d)) with v
  end.

Ltac split_bools :=
  repeat match goal with
  | |- context [Qeq_bool ?x ?y] =>
      let E := fresh "E" in
      destruct (Qeq_bool x y) eqn:E;
      [apply Qeq_bool_iff in E | apply Qeq_bool_neq in E]
  | |- context [Qle_bool ?x ?y] =>
      let E := fresh "E" in
      destruct (Qle_bool x y) eqn:E;
      [apply Qle_bool_iff in E
      |assert (y < x) by (apply Qnot_le_lt; let H := fresh in
                          intros H; apply Qle_bool_iff in H; congruence)]
  | |- context [Qlt_le_dec ?x ?y] => destruct (Qlt_le_dec x y)
  end.

Lemma share_pw (r : Q) : compute_ev_vmt_share r == ev_share_pw r.
Proof.
  unfold compute_ev_vmt_share. rewrite share_table. simpl lookup_q.
  unfold np_interp. simpl. eval_slopes. unfold ev_share_pw.
  split_bools; lra.
Qed.

(** [compute_ev_vmt_share] never leaves [[0.55, 0.868]], the smallest and
    largest values of [EV_SHARE_BASE]. *)
Theorem compute_ev_vmt_share_bounds (r : Q) :
  0.55 <= compute_ev_vmt_share r <= 0.868.
Proof.
  rewrite share_pw. unfold ev_share_pw. split_bools; lra.
Qed.

(** [compute_ev_vmt_share] is non-decreasing in the range: exact table
    hits and [np.interp] between them agree, so the piecewise-linear curve
    has no drop anywhere. *)
Theorem compute_ev_vmt_share_monotone (r1 r2 : Q) :
  r1 <= r2 -> compute_ev_vmt_share r1 <= compute_ev_vmt_share r2.
Proof.
  intros H. rewrite !share_pw. unfold ev_share_pw. split_bools; lra.
Qed.

Lemma compute_ev_vmt_share_monotone_witness :
  60 <= 110 /\ compute_ev_vmt_share 60 <= compute_ev_vmt_share 110.
Proof.
  assert (H : 60 <= 110) by (apply Qle_bool_iff; reflexivity).
  split; [exact H|]. exact (compute_ev_vmt_share_monotone 60 110 H).
Defined.

Lemma lookup_s_none {A : Type} (d : list (string * A)) (k : string) :
  lookup_s d k = None <-> ~ In k (map fst d).
Proof.
  induction d as [|[k' v] d IH]; simpl.
  - split; [intros _ []|reflexivity].
  - destruct (String.eqb_spec k k') as [->|Hne].
    + split; [discriminate|]. intros H. exfalso. apply H. left. reflexivity.
    + rewrite IH. split.
      * intros H [E|Hin]; [congruence|contradiction].
      * intros H Hin. apply H. right. exact Hin.
Qed.

Lemma compute_costs_ok (r ev saved : Q) (sc : string) (c : CostMetrics) :
  compute_costs r ev saved sc = Ok c ->
  exists g m, lookup_s SCENARIOS sc = Some (g, m) /\ ~ ev == 0 /\ ~ saved == 0 /\
    Cfleet_USD c = compute_fleet_size VMT_TOTAL VMT_PER_VEH * compute_battery_size r * (CBAT * m) /\
    per_EV_mile c = Cfleet_USD c / ev /\
    per_tCO2 c = Cfleet_USD c / BATTERY_LIFE_YRS / saved.
Proof.
  unfold compute_costs, Py.bind, py_div.
  destruct (lookup_s SCENARIOS sc) as [[g m]|]; [|discriminate].
  cbv beta iota zeta. cbn [fst snd].
  destruct (Qeq_bool ev 0) eqn:E1; [discriminate|].
  destruct (Qeq_bool saved 0) eqn:E2; [discriminate|].
  apply Qeq_bool_neq in E1, E2.
  intros H. injection H as <-.
  exists g, m. repeat split; assumption.
Qed.


Lemma map_result_forall2 {A B : Type} (f : A -> Result B) (xs : list A) (ys : list B) :
  map_result f xs = Ok ys -> Forall2 (fun x y => f x = Ok y) xs ys.
Proof.
  revert ys. induction xs as [|x xs IH]; intros ys H; simpl in H.
  - injection H as <-. constructor.
  - destruct (f x) as [b|e] eqn:Hf; [|discriminate].
    simpl in H. destruct (map_result f xs) as [bs|e] eqn:Hr; [|discriminate].
    simpl in H. injection H as <-. constructor; [exact Hf|apply IH; reflexivity].
Qed.

Lemma rows_of_scenario (n_veh : Q) (sc : string) (rs : list Q) (rows : list Row) :
  Forall2 (fun r row => erev_row n_veh sc r = Ok row) rs rows ->
  map (fun row => (Scenario row, Range_mi row)) rows = map (fun r => (sc, r)) rs.
Proof.
  induction 1 as [|r row rs rows Hr _ IH]; [reflexivity|].
  simpl. rewrite IH.
  destruct (erev_row_fields _ _ _ _ Hr) as (E1 & E2 & _). rewrite E1, E2. reflexivity.
Qed.

Lemma length_pairs (ss : list string) (rs : list Q) :
  List.length (List.concat (map (fun sc => map (fun r => (sc, r)) rs) ss))
  = (List.length ss * List.length rs)%nat.
Proof.
  induction ss as [|sc ss IH]; [reflexivity|].
  simpl. rewrite length_app, length_map, IH. reflexivity.
Qed.

(** [run_erev_analysis]: a successful run has one row per (scenario,
    range) pair, scenarios in the outer loop and ranges in the inner one,
    each row labelled with its own scenario and range. *)
Theorem run_erev_analysis_rows (ranges : option (list Q)) (scs : option (list string))
  (rows : list Row) :
  run_erev_analysis ranges scs = Ok rows ->
  let rs := match ranges with None => [25; 50; 75; 100; 125; 150] | Some rs => rs end in
  let ss := match scs with None => ["Worst"; "Average"; "Best"] | Some s => s end in
  map (fun row => (Scenario row, Range_mi row)) rows
    = List.concat (map (fun sc => map (fun r => (sc, r)) rs) ss) /\
  List.length rows = (List.length ss * List.length rs)%nat.
Proof.
  unfold run_erev_analysis. intros H.
  set (rs := match ranges with None => [25; 50; 75; 100; 125; 150] | Some rs => rs end) in *.
  set (ss := match scs with None => ["Worst"; "Average"; "Best"] | Some s => s end) in *.
  set (n := compute_fleet_size VMT_TOTAL VMT_PER_VEH) in *.
  destruct (map_result (fun sc => map_result (erev_row n sc) rs) ss) as [rss|e] eqn:Hm;
    [|discriminate].
  simpl in H. injection H as <-.
  apply map_result_forall2 in Hm.
  assert (E : map (fun row => (Scenario row, Range_mi row)) (List.concat rss)
              = List.concat (map (fun sc => map (fun r => (sc, r)) rs) ss)).
  { induction Hm as [|sc rows ss' rss' Hsc _ IH]; [reflexivity|].
    simpl. rewrite map_app, IH.
    rewrite (rows_of_scenario n sc rs rows (map_result_forall2 _ _ _ Hsc)). reflexivity. }
  split; [exact E|].
  rewrite <- length_pairs, <- E, length_map. reflexivity.
Qed.

Lemma run_erev_analysis_rows_witness :
  exists rows, run_erev_analysis (Some [25; 150]) (Some ["Best"; "Worst"]) = Ok rows /\
  map (fun row => (Scenario row, Range_mi row)) rows
    = List.concat (map (fun sc => map (fun r => (sc, r)) [25; 150]) ["Best"; "Worst"]) /\
  List.length rows = (List.length ["Best"; "Worst"] * List.length [25; 150])%nat.
Proof.
  destruct (run_erev_analysis (Some [25; 150]) (Some ["Best"; "Worst"])) as [rows|e] eqn:H.
  - exists rows. split; [reflexivity|].
    exact (run_erev_analysis_rows (Some [25; 150]) (Some ["Best"; "Worst"]) rows H).
  - vm_compute in H. discriminate.
Defined.

Lemma map_result_ok_in {A B : Type} (f : A -> Result B) (xs : list A) (ys : list B) (x : A) :
  map_result f xs = Ok ys -> In x xs -> exists y, f x = Ok y.
Proof.
  intros H Hx. apply map_result_forall2 in H.
  induction H as [|x' y xs' ys' Hf _ IH]; [destruct Hx|].
  destruct Hx as [<-|Hx]; [exists y; exact Hf|apply IH, Hx].
Qed.

(** [run_erev_analysis] fails (with the [KeyError] of [compute_costs]) as
    soon as one requested scenario is not in [SCENARIOS] and at least one
    range is requested. *)
Theorem run_erev_analysis_unknown_scenario (ranges : option (list Q))
  (scs : option (list string)) (sc : string) :
  let rs := match ranges with None => [25; 50; 75; 100; 125; 150] | Some rs => rs end in
  let ss := match scs with None => ["Worst"; "Average"; "Best"] | Some s => s end in
  In sc ss -> ~ In sc (map fst SCENARIOS) -> rs <> [] ->
  exists e, run_erev_analysis ranges scs = Err e.
Proof.
  intros rs ss Hin Hunk Hrs.
  destruct (run_erev_analysis ranges scs) as [rows|e] eqn:H; [|exists e; reflexivity].
  exfalso. unfold run_erev_analysis in H. fold rs ss in H.
  set (n := compute_fleet_size VMT_TOTAL VMT_PER_VEH) in *.
  destruct (map_result (fun sc => map_result (erev_row n sc) rs) ss) as [rss|e] eqn:Hm;
    [|discriminate].
  destruct (map_result_ok_in _ _ _ _ Hm Hin) as [rows_sc Hsc].
  destruct rs as [|r rs'] eqn:Er; [contradiction|].
  destruct (map_result_ok_in _ _ _ r Hsc (or_introl eq_refl)) as [row Hrow].
  destruct (erev_row_fields _ _ _ _ Hrow) as (_ & _ & _ & _ & _ & _ & _ & Hc).
  destruct (compute_costs_ok _ _ _ _ _ Hc) as (g & m & L & _).
  apply lookup_s_none in Hunk. congruence.
Qed.

Lemma run_erev_analysis_unknown_scenario_witness :
  In "Typical" ["Typical"] /\ ~ In "Typical" (map fst SCENARIOS) /\ [100] <> [] /\
  exists e, run_erev_analysis (Some [100]) (Some ["Typical"]) = Err e.
Proof.
  assert (H1 : In "Typical" ["Typical"]) by (left; reflexivity).
  assert (H2 : ~ In "Typical" (map fst SCENARIOS)).
  { simpl. intuition discriminate. }
  assert (H3 : [100] <> []) by discriminate.
  split; [exact H1|]. split; [exact H2|]. split; [exact H3|].
  exact (run_erev_analysis_unknown_scenario (Some [100]) (Some ["Typical"]) "Typical"
           H1 H2 H3).
Defined.

Lemma saved_eq (s : Q) :
  snd (compute_emissions (VMT_TOTAL * s) (VMT_TOTAL - VMT_TOTAL * s) GGAS GEV)
  == VMT_TOTAL * (GGAS - (GGAS + GEV) * s) * (1 # 1000000).
Proof.
  unfold compute_emissions. cbn [snd]. unfold Qdiv.
  change (/ 1e6) with (1 # 1000000). ring.
Qed.

Lemma scenario_cost_pos (sc : string) (g m : Q) :
  lookup_s SCENARIOS sc = Some (g, m) -> 0 < m.
Proof.
  unfold SCENARIOS. simpl.
  destruct (String.eqb sc "Worst"); [intros H; injection H as _ <-; reflexivity|].
  destruct (String.eqb sc "Average"); [intros H; injection H as _ <-; reflexivity|].
  destruct (String.eqb sc "Best"); [intros H; injection H as _ <-; reflexivity|].
  discriminate.
Qed.

(** A row of [run_erev_analysis]'s inner loop is consistent: the electric
    and gasoline miles split [VMT_TOTAL], and the fleet battery CAPEX is
    the installed capacity (TWh, times [1e9] kWh) priced at the scenario's
    [CBAT * cost_mult]. *)
Theorem erev_row_consistent (sc : string) (r : Q) (row : Row) :
  erev_row (compute_fleet_size VMT_TOTAL VMT_PER_VEH) sc r = Ok row ->
  exists g m, lookup_s SCENARIOS sc = Some (g, m) /\
    EV_VMT row + Gas_VMT row == VMT_TOTAL /\
    Cfleet_USD (costs row) == Installed_TWh row * 1e9 * (CBAT * m).
Proof.
  intros H.
  destruct (erev_row_fields _ _ _ _ H) as (_ & _ & _ & E4 & E5 & E6 & _ & Hc).
  destruct (compute_costs_ok _ _ _ _ _ Hc) as (g & m & L & _ & _ & Hf & _).
  exists g, m. split; [exact L|]. split.
  - rewrite E4, E5. ring.
  - rewrite Hf, E6. unfold compute_installed_capacity_twh, Qdiv.
    assert (E : / 1e9 * 1e9 == 1) by reflexivity.
    setoid_replace (compute_fleet_size VMT_TOTAL VMT_PER_VEH * compute_battery_size r *
                    / 1e9 * 1e9 * (CBAT * m))
      with (compute_fleet_size VMT_TOTAL VMT_PER_VEH * compute_battery_size r *
            (/ 1e9 * 1e9) * (CBAT * m)) by ring.
    rewrite E. ring.
Qed.

Lemma erev_row_consistent_witness :
  exists row, erev_row (compute_fleet_size VMT_TOTAL VMT_PER_VEH) "Worst" 75 = Ok row /\
  exists g m, lookup_s SCENARIOS "Worst" = Some (g, m) /\
    EV_VMT row + Gas_VMT row == VMT_TOTAL /\
    Cfleet_USD (costs row) == Installed_TWh row * 1e9 * (CBAT * m).
Proof.
  destruct (erev_row (compute_fleet_size VMT_TOTAL VMT_PER_VEH) "Worst" 75) as [row|e] eqn:H.
  - exists row. split; [reflexivity|]. exact (erev_row_consistent "Worst" 75 row H).
  - vm_compute in H. discriminate.
Defined.

Lemma row_saved (n_veh : Q) (sc : string) (r : Q) (row : Row) :
  erev_row n_veh sc r = Ok row ->
  CO2_saved_tons row
  == VMT_TOTAL * (GGAS - (GGAS + GEV) * compute_ev_vmt_share r) * (1 # 1000000).
Proof.
  intros H. destruct (erev_row_fields _ _ _ _ H) as (_ & _ & _ & _ & _ & _ & E7 & _).
  rewrite E7. apply saved_eq.
Qed.

(** Rows of ranges of 75 miles and more report negative CO2 savings, and
    with them a negative CAPEX per ton of CO2: the paper path's savings
    [GGAS*gas_vmt - GEV*ev_vmt] change sign once the EV share passes
    [GGAS / (GGAS + GEV)] (about 0.777). *)
Theorem erev_row_savings_negative (n_veh : Q) (sc : string) (r : Q) (row : Row) :
  75 <= r -> erev_row n_veh sc r = Ok row ->
  CO2_saved_tons row < 0 /\ per_tCO2 (costs row) < 0.
Proof.
  intros Hr H.
  assert (Hs : 0.79 <= compute_ev_vmt_share r).
  { rewrite share_pw. unfold ev_share_pw. split_bools; lra. }
  assert (Hsaved : CO2_saved_tons row < 0).
  { rewrite (row_saved _ _ _ _ H).
    assert (HV : 0 < VMT_TOTAL) by reflexivity.
    assert (HK : 0 < GGAS + GEV) by reflexivity.
    assert (H79 : GGAS - (GGAS + GEV) * 0.79 < 0) by reflexivity.
    set (s := compute_ev_vmt_share r) in *.
    set (K := GGAS + GEV) in *. set (G := GGAS) in *. set (V := VMT_TOTAL) in *.
    clearbody s K G V.
    assert (HX : G - K * s < 0) by nra.
    set (X := G - K * s) in *. clearbody X. nra. }
  split; [exact Hsaved|].
  destruct (erev_row_fields _ _ _ _ H) as (_ & _ & _ & _ & _ & _ & _ & Hc).
  destruct (compute_costs_ok _ _ _ _ _ Hc) as (g & m & L & _ & Hne & Hf & _ & Ht).
  pose proof (scenario_cost_pos _ _ _ L) as Hm.
  assert (Hcf : 0 < Cfleet_USD (costs row) / BATTERY_LIFE_YRS).
  { rewrite Hf. unfold compute_battery_size, ETA_EV, CBAT, BATTERY_LIFE_YRS, Qdiv.
    assert (HN : 0 < compute_fleet_size VMT_TOTAL VMT_PER_VEH) by reflexivity.
    assert (H1 : 0 < / 3.6) by reflexivity.
    assert (H2 : 0 < / 10) by reflexivity.
    set (N := compute_fleet_size VMT_TOTAL VMT_PER_VEH) in *.
    set (a := / 3.6) in *. set (b := / 10) in *. clearbody N a b.
    repeat apply Qmult_lt_0_compat; lra. }
  rewrite Ht. destruct (inv_neg _ Hsaved) as [_ Hi].
  unfold Qdiv at 1. nra.
Qed.

Lemma erev_row_savings_negative_witness :
  exists row, 75 <= 100 /\
    erev_row (compute_fleet_size VMT_TOTAL VMT_PER_VEH) "Average" 100 = Ok row /\
    CO2_saved_tons row < 0 /\ per_tCO2 (costs row) < 0.
Proof.
  assert (Hr : 75 <= 100) by (apply Qle_bool_iff; reflexivity).
  destruct (erev_row (compute_fleet_size VMT_TOTAL VMT_PER_VEH) "Average" 100)
    as [row|e] eqn:H.
  - exists row. split; [exact Hr|]. split; [reflexivity|].
    exact (erev_row_savings_negative _ "Average" 100 row Hr H).
  - vm_compute in H. discriminate.
Defined.

(** Rows of ranges of at most 50 miles report positive CO2 savings. *)
Theorem erev_row_savings_positive (n_veh : Q) (sc : string) (r : Q) (row : Row) :
  r <= 50 -> erev_row n_veh sc r = Ok row -> 0 < CO2_saved_tons row.
Proof.
  intros Hr H.
  assert (Hs : compute_ev_vmt_share r <= 0.733).
  { rewrite share_pw. unfold ev_share_pw. split_bools; lra. }
  rewrite (row_saved _ _ _ _ H).
  assert (HV : 0 < VMT_TOTAL) by reflexivity.
  assert (HK : 0 < GGAS + GEV) by reflexivity.
  assert (H73 : 0 < GGAS - (GGAS + GEV) * 0.733) by reflexivity.
  set (s := compute_ev_vmt_share r) in *.
  set (K := GGAS + GEV) in *. set (G := GGAS) in *. set (V := VMT_TOTAL) in *.
  clearbody s K G V.
  assert (HX : 0 < G - K * s) by nra.
  set (X := G - K * s) in *. clearbody X. nra.
Qed.

Lemma erev_row_savings_positive_witness :
  exists row, 50 <= 50 /\
    erev_row (compute_fleet_size VMT_TOTAL VMT_PER_VEH) "Best" 50 = Ok row /\
    0 < CO2_saved_tons row.
Proof.
  assert (Hr : 50 <= 50) by (apply Qle_bool_iff; reflexivity).
  destruct (erev_row (compute_fleet_size VMT_TOTAL VMT_PER_VEH) "Best" 50)
    as [row|e] eqn:H.
  - exists row. split; [exact Hr|]. split; [reflexivity|].
    exact (erev_row_savings_positive _ "Best" 50 row Hr H).
  - vm_compute in H. discriminate.
Defined.

End ErevExtra.
